(** * Wiki page search glue: a shallow embedding of
    [wiki/wiki/doctype/wiki_page/search.py] and the properties of it.

    The module keeps one RediSearch index per wiki space in step with the
    wiki pages and forwards queries to it.  Python strings are modelled as
    [string], the cache/Redis connection and the job queue as an explicit
    world that every operation threads, and [redis.exceptions.ResponseError]
    as the one exception the code catches. *)

From Stdlib Require Import Ascii.
From stdpp Require Import gmap strings list fin_maps.

(** ** Python [str] primitives used by the module *)

Module Py.

(** [s.startswith(p)] *)
Fixpoint startswith (s p : string) {struct p} : bool :=
  match p with
  | EmptyString => true
  | String a p' =>
      match s with
      | EmptyString => false
      | String b s' => if Ascii.eqb a b then startswith s' p' else false
      end
  end.

(** [sub in s]: [sub] occurs somewhere in [s] as a contiguous run. *)
Fixpoint contains (sub s : string) : bool :=
  startswith s sub ||
  match s with
  | EmptyString => false
  | String _ s' => contains sub s'
  end.

(** [s.endswith(p)] for a one-character [p]. *)
Fixpoint endswith_char (s : string) (c : ascii) : bool :=
  match s with
  | EmptyString => false
  | String a EmptyString => Ascii.eqb a c
  | String _ s' => endswith_char s' c
  end.

(** [s.split(sep)] for a one-character [sep]: the pieces between
    consecutive separators, empty pieces included; never the empty list. *)
Fixpoint split_char (sep : ascii) (s : string) : list string :=
  match s with
  | EmptyString => [EmptyString]
  | String a s' =>
      if Ascii.eqb a sep then EmptyString :: split_char sep s'
      else match split_char sep s' with
           | [] => [String a EmptyString]
           | w :: ws => String a w :: ws
           end
  end.

(** [sep.join(parts)] *)
Fixpoint join (sep : string) (parts : list string) : string :=
  match parts with
  | [] => EmptyString
  | [p] => p
  | p :: ps => p +:+ sep +:+ join sep ps
  end.

(** [s.replace(old, new)] for a non-empty [old]: a left-to-right scan that
    replaces every non-overlapping occurrence.  [skip] counts the
    characters of the occurrence just matched that remain to be consumed. *)
Fixpoint replace_from (old new : string) (skip : nat) (s : string) : string :=
  match s with
  | EmptyString => EmptyString
  | String a s' =>
      match skip with
      | S k => replace_from old new k s'
      | O =>
          if startswith s old
          then new +:+ replace_from old new (String.length old - 1) s'
          else String a (replace_from old new 0 s')
      end
  end.

(** With an empty [old] Python puts [new] before every character and at
    the end. *)
Fixpoint intersperse (new s : string) : string :=
  match s with
  | EmptyString => new
  | String a s' => new +:+ String a (intersperse new s')
  end.

Definition replace (s old new : string) : string :=
  match old with
  | EmptyString => intersperse new s
  | String _ _ => replace_from old new 0 s
  end.

(** [f"{x}"] of a value that is a [str] or [None]. *)
Definition format (x : option string) : string :=
  match x with
  | Some s => s
  | None => "None"
  end.

(** Truthiness of a [str]-or-[None] value: [None] and [""] are falsy. *)
Definition truthy (x : option string) : bool :=
  match x with
  | Some (String _ _) => true
  | _ => false
  end.

End Py.

(** ** Data *)

(** A row of [Wiki Page] as [rebuild_index] selects it and as
    [update_index] copies it from a saved document. *)
Record WikiPage := {
  name : string;
  title : string;
  content : string;
  route : string;
}.

(** What the module reads from its host: the database name that prefixes
    every cache key, the site name, whether a web request is being served,
    and the [Wiki Space] routes and [Wiki Page] rows in the order
    [frappe.db.get_all] returns them. *)
Record Site := {
  db_name : string;
  site_name : string;
  has_request : bool;
  wiki_spaces : list string;
  wiki_pages : list WikiPage;
}.

Definition PREFIX : string := "wiki_page_search_doc".

(** The cache key that holds the rebuild flag. *)
Definition IN_PROGRESS : string := "wiki_page_index_in_progress".

Section Pure.

Variable site : Site.

(** [frappe.cache().make_key(key)]: the key in the site's namespace. *)
Definition make_key (key : string) : string := db_name site +:+ "|" +:+ key.

(** The loop of [get_space_route] over the routes already fetched. *)
Fixpoint first_space_in (spaces : list string) (path : string) : option string :=
  match spaces with
  | [] => None
  | space :: rest =>
      if Py.contains space path then Some space else first_space_in rest path
  end.

Definition get_space_route (path : string) : option string :=
  first_space_in (wiki_spaces site) path.

(** [search], the choice of the space: [if not space: space = get_space_route(path)]. *)
Definition search_space (path : string) (space : option string) : option string :=
  if negb (Py.truthy space) then get_space_route path else space.

(** [search], from the cleaned query to [search_query]. *)
Definition search_query (cleaned : string) : string :=
  let query_parts := Py.split_char " " cleaned in
  let first := hd EmptyString query_parts in
  let search_query :=
    if (length query_parts =? 1) && negb (Py.endswith_char first "*")
    then first +:+ "*" else cleaned in
  if 1 <? length query_parts
  then Py.join " " (map (fun q => "%%" +:+ q +:+ "%%") query_parts)
  else search_query.

(** The condition of the comprehension that builds [records_to_index]. *)
Definition under_space (space : string) (d : WikiPage) : bool :=
  String.eqb (space +:+ "/") (route d)
  || (Py.startswith (route d) (space +:+ "/")
      && negb (Py.startswith (Py.replace (route d) (space +:+ "/") "") "v")).

Definition records_to_index (pages : list WikiPage) (space : string) : list WikiPage :=
  List.filter (under_space space) pages.

(** The key of a page's record: [r.make_key(f"{PREFIX}{space}:{d.name}")].
    The space is a route or [None]. *)
Definition record_key (space : option string) (page_name : string) : string :=
  make_key (PREFIX +:+ Py.format space +:+ ":" +:+ page_name).

(** The name [r.ft(space)] gives the index of a space. *)
Definition index_name (space : option string) : string :=
  make_key (Py.format space).

End Pure.

(** ** The cache, the search backend and the job queue *)

Inductive exn := ResponseError (message : string).

Definition message (e : exn) : string :=
  match e with ResponseError m => m end.

(** The commands the module sends to Redis. *)
Inductive Command :=
| FtDropIndex (index : string)                        (* dropindex(delete_documents=True) *)
| FtCreateIndex (index : string) (prefix : list string)
| FtDeleteDocument (index key : string)
| HSet (key : string) (mapping : list (string * string)).

(** What an observer of the process sees, in order: cache writes, commands
    with the error they were answered with if any, and lines on stdout. *)
Inductive Event :=
| SetValue (key : string) (value : bool)
| Redis (c : Command) (error : option exn)
| Print (text : string)
| ProgressBar (txt : string) (i n : nat).

Inductive Task := RebuildIndex.

Record Job := { task : Task; queue : string }.

(** A backend answers a command with a new state or with a
    [ResponseError]; a command that is refused changes nothing. *)
Class Backend (B : Type) := exec : Command -> B -> exn + B.

Record World (B : Type) := mkWorld {
  cache : gmap string bool;
  redis : B;
  jobs : list Job;
  trace : list Event;
}.
Arguments mkWorld {B}.
Arguments cache {B}.
Arguments redis {B}.
Arguments jobs {B}.
Arguments trace {B}.

Inductive outcome (A : Type) :=
| Returned (a : A)
| Raised (e : exn).
Arguments Returned {A}.
Arguments Raised {A}.

Definition M (B A : Type) : Type := World B -> outcome A * World B.

Declare Scope py_scope.
Delimit Scope py_scope with py.

Section Monad.

Context {B : Type}.

Definition ret {A} (a : A) : M B A := fun w => (Returned a, w).

Definition bind {A C} (m : M B A) (k : A -> M B C) : M B C :=
  fun w =>
    match m w with
    | (Returned a, w') => k a w'
    | (Raised e, w') => (Raised e, w')
    end.

(** [try: body except ResponseError as e: handler(e)] *)
Definition try_except {A} (body : M B A) (handler : exn -> M B A) : M B A :=
  fun w =>
    match body w with
    | (Returned a, w') => (Returned a, w')
    | (Raised e, w') => handler e w'
    end.

Definition emit (ev : Event) : M B unit :=
  fun w => (Returned tt, mkWorld (cache w) (redis w) (jobs w) (trace w ++ [ev])).

Definition print (text : string) : M B unit := emit (Print text).

(** [frappe.cache().set_value(key, value)] and [get_value(key)]. *)
Definition set_value (key : string) (value : bool) : M B unit :=
  fun w =>
    (Returned tt,
     mkWorld (<[key := value]> (cache w)) (redis w) (jobs w)
             (trace w ++ [SetValue key value])).

Definition get_value (key : string) : M B (option bool) :=
  fun w => (Returned (cache w !! key), w).

(** [frappe.enqueue(task, queue=q)] *)
Definition enqueue (t : Task) (q : string) : M B unit :=
  fun w =>
    (Returned tt,
     mkWorld (cache w) (redis w) (jobs w ++ [{| task := t; queue := q |}]) (trace w)).

(** One command to the backend; a refusal is raised as the exception. *)
Definition send `{Backend B} (c : Command) : M B unit :=
  fun w =>
    match exec c (redis w) with
    | inr b' =>
        (Returned tt, mkWorld (cache w) b' (jobs w) (trace w ++ [Redis c None]))
    | inl e =>
        (Raised e, mkWorld (cache w) (redis w) (jobs w) (trace w ++ [Redis c (Some e)]))
    end.

(** [for x in xs: body(x)]; an exception leaves the loop. *)
Fixpoint for_each {A} (body : A -> M B unit) (xs : list A) : M B unit :=
  match xs with
  | [] => ret tt
  | x :: rest => bind (body x) (fun _ => for_each body rest)
  end.

End Monad.

Notation "x <- m ;; k" := (bind m (fun x => k))
  (at level 100, m at next level, right associativity) : py_scope.
Notation "m ;;; k" := (bind m (fun _ => k))
  (at level 100, right associativity) : py_scope.

(** ** The operations of [search.py] *)

Section Operations.

Context {B : Type} `{Backend B}.
Variable site : Site.
(** [frappe.utils.strip_html_tags] *)
Variable strip_html_tags : string -> string.

Local Open Scope py_scope.

Definition drop_index (space : string) : M B unit :=
  try_except (send (FtDropIndex (index_name site (Some space))))
             (fun _ => ret tt).

Definition mapping_of (d : WikiPage) : list (string * string) :=
  [("title", title d); ("content", strip_html_tags (content d)); ("route", route d)].

(** The body of the loop of [create_index_for_records] from the [i]-th
    record on; [total] is [len(records)]. *)
Fixpoint index_from (total : nat) (space : option string) (i : nat)
         (records : list WikiPage) : M B unit :=
  match records with
  | [] => ret tt
  | d :: rest =>
      (if negb (has_request site) && (10 <? total)
       then emit (ProgressBar ("Indexing Wiki Pages - " +:+ Py.format space) i total)
       else ret tt) ;;;
      send (HSet (record_key site space (name d)) (mapping_of d)) ;;;
      index_from total space (S i) rest
  end.

Definition create_index_for_records (records : list WikiPage)
           (space : option string) : M B unit :=
  index_from (length records) space 0 records.

Definition remove_index_for_records (records : list WikiPage)
           (space : option string) : M B unit :=
  for_each
    (fun d =>
       try_except
         (send (FtDeleteDocument (index_name site space)
                                 (record_key site space (name d))))
         (fun _ => ret tt))
    records.

(** One turn of the loop of [rebuild_index]. *)
Definition rebuild_space (pages : list WikiPage) (space : string) : M B unit :=
  try_except
    (drop_index space ;;;
     send (FtCreateIndex (index_name site (Some space))
                         [make_key site (PREFIX +:+ space) +:+ ":"]) ;;;
     create_index_for_records (records_to_index pages space) (Some space))
    (fun e => print (message e)).

Definition rebuild_index : M B unit :=
  set_value IN_PROGRESS true ;;;
  let spaces := wiki_spaces site in
  let pages := wiki_pages site in
  for_each (rebuild_space pages) spaces ;;;
  set_value IN_PROGRESS false.

Definition rebuild_index_in_background : M B unit :=
  in_progress <- get_value IN_PROGRESS ;;
  if negb (default false in_progress)
  then print ("Queued rebuilding of search index for " +:+ site_name site) ;;;
       enqueue RebuildIndex "long"
  else ret tt.

(** [doc] is the saved page; the record copies its four fields. *)
Definition update_index (doc : WikiPage) : M B unit :=
  let record := {| name := name doc; title := title doc;
                   content := content doc; route := route doc |} in
  let space := get_space_route site (route doc) in
  create_index_for_records [record] space.

(** The record of [remove_index] has a name and a route only; the fields
    it lacks are never read. *)
Definition remove_index (doc : WikiPage) : M B unit :=
  let record := {| name := name doc; title := EmptyString;
                   content := EmptyString; route := route doc |} in
  let space := get_space_route site (route doc) in
  remove_index_for_records [record] space.

End Operations.

(** ** A reference backend

    RediSearch as the module uses it: an index has a name and the key
    prefixes it covers; the documents of an index are the hashes whose key
    starts with one of its prefixes.  [FT.DROPINDEX .. DD] and [FT.DEL]
    answer an unknown index name with an error, [FT.CREATE] answers an
    existing one with an error, [FT.DEL] of a key the index does not hold
    deletes nothing, and [HSET] sets the given fields of the hash at the
    key and keeps its other fields. *)

Record RediSearch := {
  indexes : gmap string (list string);
  hashes : gmap string (gmap string string);
}.

Definition indexed_by (prefixes : list string) (key : string) : bool :=
  existsb (Py.startswith key) prefixes.

Definition redisearch_exec (c : Command) (r : RediSearch) : exn + RediSearch :=
  match c with
  | FtDropIndex index =>
      match indexes r !! index with
      | None => inl (ResponseError "Unknown Index name")
      | Some prefixes =>
          inr {| indexes := delete index (indexes r);
                 hashes := filter (fun kv => indexed_by prefixes kv.1 = false) (hashes r) |}
      end
  | FtCreateIndex index prefixes =>
      match indexes r !! index with
      | Some _ => inl (ResponseError "Index already exists")
      | None =>
          inr {| indexes := <[index := prefixes]> (indexes r); hashes := hashes r |}
      end
  | FtDeleteDocument index key =>
      match indexes r !! index with
      | None => inl (ResponseError "Unknown Index name")
      | Some prefixes =>
          inr {| indexes := indexes r;
                 hashes := if indexed_by prefixes key
                           then delete key (hashes r) else hashes r |}
      end
  | HSet key mapping =>
      inr {| indexes := indexes r;
             hashes := <[key := list_to_map mapping ∪ default ∅ (hashes r !! key)]>
                         (hashes r) |}
  end.

#[export] Instance redisearch_backend : Backend RediSearch := redisearch_exec.

(** The character [c] occurs in [s]. *)
Fixpoint has_char (c : ascii) (s : string) : bool :=
  match s with
  | EmptyString => false
  | String a s' => Ascii.eqb a c || has_char c s'
  end.

(** [frappe.utils.strip_html_tags] deletes every match of the pattern
    [<[^>]*>]: a [<] opens a match when a [>] follows somewhere, and the
    match ends at the first [>].  [in_tag] tells that the scan is inside a
    match. *)
Fixpoint strip_tags_from (in_tag : bool) (s : string) : string :=
  match s with
  | EmptyString => EmptyString
  | String a s' =>
      if in_tag
      then strip_tags_from (negb (Ascii.eqb a ">")) s'
      else if Ascii.eqb a "<" && has_char ">" s'
           then strip_tags_from true s'
           else String a (strip_tags_from false s')
  end.

Definition strip_html_tags_re (text : string) : string :=
  strip_tags_from false text.

(** No [<] of the text has a [>] after it: the text holds no tag. *)
Fixpoint no_tag (s : string) : bool :=
  match s with
  | EmptyString => true
  | String a s' => (negb (Ascii.eqb a "<") || negb (has_char ">" s')) && no_tag s'
  end.

(** ** Vocabulary of the properties *)

(** [sub] occurs in [s]: what Python's [sub in s] decides. *)
Definition occurs_in (sub s : string) : Prop :=
  exists before after, s = before +:+ sub +:+ after.

(** [p] is a prefix of [s]. *)
Definition prefix_of_str (p s : string) : Prop :=
  exists rest, s = p +:+ rest.

(** The reading of "the partition whose route is the longest prefix match
    of the path among the known routes". *)
Definition longest_prefix_match (routes : list string) (path r : string) : Prop :=
  In r routes /\ prefix_of_str r path /\
  forall r', In r' routes -> prefix_of_str r' path -> String.length r' <= String.length r.

(** The terms of a query separated by white space, as Python's
    argument-less [split()] gives them: runs of white space separate, and
    no term is empty. *)
Fixpoint whitespace_terms_from (cur : option string) (s : string) : list string :=
  match s with
  | EmptyString => match cur with Some w => [w] | None => [] end
  | String a s' =>
      if Ascii.is_space a
      then match cur with
           | Some w => w :: whitespace_terms_from None s'
           | None => whitespace_terms_from None s'
           end
      else whitespace_terms_from
             (Some (default EmptyString cur +:+ String a EmptyString)) s'
  end.

Definition whitespace_terms (s : string) : list string :=
  whitespace_terms_from None s.

(** A term in the fuzzy marker. *)
Definition fuzzy (q : string) : string := "%%" +:+ q +:+ "%%".

(** The segment of a route up to its first [/]. *)
Fixpoint first_segment (s : string) : string :=
  match s with
  | EmptyString => EmptyString
  | String a s' => if Ascii.eqb a "/" then EmptyString else String a (first_segment s')
  end.

(** A version-marker segment, like [v2]: the letter [v] and a digit, then
    anything. *)
Definition version_marker (segment : string) : bool :=
  match segment with
  | String "v"%char (String c _) =>
      match Ascii.is_nat c with Some _ => true | None => false end
  | _ => false
  end.

(** The wider test: the segment begins with [v]. *)
Definition begins_with_v (segment : string) : bool :=
  Py.startswith segment "v".

(** The selection rule in the words of the data model, for a given test of
    version markers: the route is the space followed by [/], or goes on
    below it with a first segment that is no marker. *)
Definition falls_under (marker : string -> bool) (space : string) (d : WikiPage) : Prop :=
  route d = space +:+ "/" \/
  exists rest, route d = space +:+ "/" +:+ rest /\
               marker (first_segment rest) = false.

(** The commands in a trace, answers and output left out. *)
Definition commands_of (evs : list Event) : list Command :=
  omap (fun ev => match ev with Redis c _ => Some c | _ => None end) evs.

(** A command that went through, or a progress line. *)
Definition went_through (ev : Event) : bool :=
  match ev with
  | Redis _ None | ProgressBar _ _ _ => true
  | _ => false
  end.

Section Script.

Variable site : Site.
Variable strip_html_tags : string -> string.

(** The write of one page's record. *)
Definition hset_of (space : option string) (d : WikiPage) : Command :=
  HSet (record_key site space (name d)) (mapping_of strip_html_tags d).

(** What a rebuild has to send for a space after dropping its index. *)
Definition script_of (space : string) : list Command :=
  FtCreateIndex (index_name site (Some space))
                [make_key site (PREFIX +:+ space) +:+ ":"]
  :: map (hset_of (Some space)) (records_to_index (wiki_pages site) space).

(** What one space contributes to the trace of a rebuild after its
    [FT.DROPINDEX]: either the whole script went through, or the script
    went through up to a command that was refused, and the error was
    printed at once. *)
Inductive space_run (script : list Command) : list Event -> Prop :=
| run_complete evs :
    forallb went_through evs = true ->
    commands_of evs = script ->
    space_run script evs
| run_reported evs c e :
    forallb went_through evs = true ->
    (commands_of evs ++ [c]) `prefix_of` script ->
    space_run script (evs ++ [Redis c (Some e); Print (message e)]).

(** The trace of one space of a rebuild: the drop of its index, whatever
    the answer, then its run. *)
Definition space_segment (space : string) (seg : list Event) : Prop :=
  exists answer rest,
    seg = Redis (FtDropIndex (index_name site (Some space))) answer :: rest /\
    space_run (script_of space) rest.

End Script.

(** [w'] is [w] after the events [evs], the job queue untouched. *)
Definition extends {B} (w w' : World B) (evs : list Event) : Prop :=
  cache w' = cache w /\ jobs w' = jobs w /\ trace w' = trace w ++ evs.

(** The keys a removal of [records] deletes from a Redis with the indexes
    [idxs]: the record keys the space's index holds. *)
Definition removed_key (site : Site) (space : option string)
           (idxs : gmap string (list string)) (records : list WikiPage)
           (key : string) : bool :=
  match idxs !! index_name site space with
  | Some prefixes =>
      indexed_by prefixes key
      && existsb (fun d => String.eqb key (record_key site space (name d))) records
  | None => false
  end.

(** The deletion of one page's record. *)
Definition delete_of (site : Site) (space : option string) (d : WikiPage) : Command :=
  FtDeleteDocument (index_name site space) (record_key site space (name d)).

(** ** The documents [search] returns from the index *)

(** [s.split(sep, 1)] for a one-character [sep]: one cut at most, at the
    first separator. *)
Fixpoint split_once (sep : ascii) (s : string) : list string :=
  match s with
  | EmptyString => [EmptyString]
  | String a s' =>
      if Ascii.eqb a sep then [EmptyString; s']
      else match split_once sep s' with
           | [] => [String a EmptyString]
           | w :: ws => String a w :: ws
           end
  end.

(** [doc.id.split(":", 1)[1]]; [None] is the [IndexError] of an id without
    a colon. *)
Definition name_of_id (id : string) : option string :=
  (split_once ":" id : list string) !! 1.

(** A document of the index's answer, and the dictionary [search] makes of
    it. *)
Record Hit := {
  hit_id : string;
  hit_title : string;
  hit_content : string;
  hit_route : string;
}.

Record ResultDoc := {
  doc_content : string;
  doc_name : string;
  doc_route : string;
  doc_title : string;
}.

(** The loop over [result.docs]; the [IndexError] of one id ends it. *)
Fixpoint result_docs (hits : list Hit) : option (list ResultDoc) :=
  match hits with
  | [] => Some []
  | doc :: rest =>
      match name_of_id (hit_id doc) with
      | None => None
      | Some page_name =>
          match result_docs rest with
          | None => None
          | Some docs =>
              Some ({| doc_content := hit_content doc; doc_name := page_name;
                       doc_route := hit_route doc; doc_title := hit_title doc |}
                      :: docs)
          end
      end
  end.

(** The progress lines of a trace: text, position and total. *)
Definition progress_of (evs : list Event) : list (string * nat * nat) :=
  omap (fun ev => match ev with ProgressBar t i n => Some (t, i, n) | _ => None end) evs.

(** The lines printed in a trace. *)
Definition printed_of (evs : list Event) : list string :=
  omap (fun ev => match ev with Print t => Some t | _ => None end) evs.

(** The job the background entry point queues. *)
Definition long_rebuild : Job := {| task := RebuildIndex; queue := "long" |}.

(** The progress lines an upsert of [n] records prints from position [i]
    on, when it prints any. *)
Definition progress_lines (space : option string) (total i n : nat)
  : list (string * nat * nat) :=
  map (fun j => ("Indexing Wiki Pages - " +:+ Py.format space, j, total)) (seq i n).

(** The backend behind a trace: [plays b evs b'] says that the backend
    goes from [b] to [b'] when it is sent the commands of [evs] in order,
    and that every answer recorded in [evs] is the one it gives there.  A
    refused command leaves it as it is; output is not its concern. *)
Inductive plays {B : Type} `{Backend B} : B -> list Event -> B -> Prop :=
| plays_nil b : plays b [] b
| plays_accepted b c b' evs b'' :
    exec c b = inr b' -> plays b' evs b'' -> plays b (Redis c None :: evs) b''
| plays_refused b c e evs b'' :
    exec c b = inl e -> plays b evs b'' -> plays b (Redis c (Some e) :: evs) b''
| plays_silent b ev evs b'' :
    commands_of [ev] = [] -> plays b evs b'' -> plays b (ev :: evs) b''.

(** An operation whose every run extends the trace by events that the
    backend plays from the state before to the state after. *)
Definition tracks {B : Type} `{Backend B} {A : Type} (m : M B A) : Prop :=
  forall w, exists evs,
    trace (snd (m w)) = trace w ++ evs /\
    plays (redis w) evs (redis (snd (m w))).

(** The record among [records] that is written last under [key], if any. *)
Fixpoint last_written (site : Site) (space : option string)
         (records : list WikiPage) (key : string) : option WikiPage :=
  match records with
  | [] => None
  | d :: rest =>
      match last_written site space rest key with
      | Some later => Some later
      | None =>
          if String.eqb key (record_key site space (name d)) then Some d else None
      end
  end.

(** ** Sample sites and documents *)

(** A site with a space nested below another one. *)
Definition site_nested : Site :=
  {| db_name := "wiki"; site_name := "wiki.example"; has_request := false;
     wiki_spaces := ["docs"; "docs/api"]; wiki_pages := [] |}.

(** A site with three spaces and a page in each. *)
Definition site_abc : Site :=
  {| db_name := "wiki"; site_name := "wiki.example"; has_request := false;
     wiki_spaces := ["a"; "b"; "c"];
     wiki_pages :=
       [ {| name := "p1"; title := "A"; content := "<p>a</p>"; route := "a/x" |};
         {| name := "p2"; title := "B"; content := "<p>b</p>"; route := "b/x" |};
         {| name := "p3"; title := "C"; content := "<p>c</p>"; route := "c/x" |} ] |}.

(** A site with the one space [docs]. *)
Definition site_docs : Site :=
  {| db_name := "wiki"; site_name := "wiki.example"; has_request := false;
     wiki_spaces := ["docs"]; wiki_pages := [] |}.

(** A backend without state that refuses to create one index. *)
Definition refusing (index : string) : Backend unit :=
  fun c _ =>
    match c with
    | FtCreateIndex i _ =>
        if String.eqb i index then inl (ResponseError "Index already exists") else inr tt
    | _ => inr tt
    end.

(** A backend without state that refuses every drop of an index. *)
Definition refusing_drop : Backend unit :=
  fun c _ =>
    match c with
    | FtDropIndex _ => inl (ResponseError "Unknown Index name")
    | _ => inr tt
    end.

(** An empty Redis, and a world around a backend state with the rebuild
    flag as given. *)
Definition empty_redis : RediSearch := {| indexes := ∅; hashes := ∅ |}.

Definition world_of {B} (b : B) (flag : option bool) : World B :=
  mkWorld (match flag with Some v => {[IN_PROGRESS := v]} | None => ∅ end) b [] [].

Definition page (page_name page_route : string) : WikiPage :=
  {| name := page_name; title := "Intro";
     content := "<p>Hello <b>World</b></p>"; route := page_route |}.

(** * Properties *)

(** ** The string primitives *)

#[local] Arguments String.append !_ _ / : simpl nomatch.

Example startswith_ex : Py.startswith "docs/v2/intro" "docs/" = true.
Proof. reflexivity. Qed.
Example contains_ex : Py.contains "api" "docs/api/x" = true.
Proof. reflexivity. Qed.
Example split_ex : Py.split_char " " "cat  dog" = ["cat"; ""; "dog"].
Proof. reflexivity. Qed.
Example split_empty_ex : Py.split_char " " "" = [""].
Proof. reflexivity. Qed.
Example replace_ex : Py.replace "docs/docs/v2" "docs/" "" = "v2".
Proof. reflexivity. Qed.
Example replace_overlap_ex : Py.replace "aaa" "aa" "b" = "ba".
Proof. reflexivity. Qed.
Example strip_ex : strip_html_tags_re "<p>Hello <b>World</b></p>" = "Hello World".
Proof. reflexivity. Qed.
Example strip_unclosed_ex : strip_html_tags_re "a < b <i>c" = "a c".
Proof. reflexivity. Qed.
Example whitespace_terms_ex : whitespace_terms " cat  dog " = ["cat"; "dog"].
Proof. reflexivity. Qed.
Example version_marker_ex :
  version_marker "v2" = true /\ version_marker "vocabulary" = false.
Proof. split; reflexivity. Qed.

Lemma app_empty_r (s : string) : s +:+ "" = s.
Proof. induction s as [|a s IH]; simpl; [done | by rewrite IH]. Qed.

Lemma app_assoc_str (a b c : string) : (a +:+ b) +:+ c = a +:+ b +:+ c.
Proof. induction a as [|x a IH]; simpl; [done | by rewrite IH]. Qed.

Lemma app_length_str (a b : string) :
  String.length (a +:+ b) = String.length a + String.length b.
Proof. induction a as [|x a IH]; simpl; [done | by rewrite IH]. Qed.

Lemma startswith_spec (s p : string) :
  Py.startswith s p = true <-> prefix_of_str p s.
Proof.
  revert s. induction p as [|a p IH]; intros s; simpl.
  - split; [intros _; exists s; reflexivity | reflexivity].
  - destruct s as [|b s].
    + split; [discriminate | intros [rest Hrest]; discriminate].
    + destruct (Ascii.eqb_spec a b) as [->|Hne].
      * rewrite IH. split; intros [rest Hrest]; exists rest.
        -- simpl. by rewrite Hrest.
        -- simpl in Hrest. by injection Hrest.
      * split; [done | intros [rest Hrest]; simpl in Hrest; congruence].
Qed.

Lemma startswith_app (p rest : string) : Py.startswith (p +:+ rest) p = true.
Proof. apply startswith_spec. by exists rest. Qed.

Lemma contains_spec (sub s : string) :
  Py.contains sub s = true <-> occurs_in sub s.
Proof.
  induction s as [|a s IH].
  - simpl. rewrite orb_false_r, startswith_spec. split.
    + intros [rest Hrest]. by exists EmptyString, rest.
    + intros [[|x before] [after Heq]]; [by exists after | discriminate].
  - cbn [Py.contains]. rewrite orb_true_iff, IH, startswith_spec. split.
    + intros [[rest Hrest] | [before [after Heq]]].
      * by exists EmptyString, rest.
      * exists (String a before), after. simpl. by rewrite Heq.
    + intros [[|x before] [after Heq]]; simpl in Heq.
      * left. by exists after.
      * right. exists before, after. congruence.
Qed.

Lemma contains_false (sub s : string) :
  Py.contains sub s = false <-> ~ occurs_in sub s.
Proof.
  rewrite <- contains_spec. destruct (Py.contains sub s); split; done.
Qed.

(** Stripping only deletes characters, and leaves no tag behind. *)
Lemma strip_tags_from_has_char (c : ascii) (in_tag : bool) (s : string) :
  has_char c (strip_tags_from in_tag s) = true -> has_char c s = true.
Proof.
  revert in_tag. induction s as [|a s IH]; intros in_tag; [done|].
  cbn [strip_tags_from has_char]. destruct in_tag.
  - intros Hc. rewrite (IH _ Hc). apply orb_true_r.
  - destruct (Ascii.eqb a "<" && has_char ">" s).
    + intros Hc. rewrite (IH _ Hc). apply orb_true_r.
    + cbn [has_char]. intros [->|Hc]%orb_true_iff; [done|].
      rewrite (IH _ Hc). apply orb_true_r.
Qed.

Lemma strip_html_tags_re_no_tag (text : string) :
  no_tag (strip_html_tags_re text) = true.
Proof.
  unfold strip_html_tags_re. generalize false as in_tag.
  induction text as [|a s IH]; intros in_tag; [done|].
  cbn [strip_tags_from]. destruct in_tag; [apply IH|].
  destruct (Ascii.eqb a "<") eqn:Ha; cbn [andb].
  - destruct (has_char ">" s) eqn:Hgt; [apply IH|].
    cbn [no_tag]. rewrite Ha, IH, andb_true_r. cbn [negb orb].
    destruct (has_char ">" (strip_tags_from false s)) eqn:Hout; [|done].
    apply strip_tags_from_has_char in Hout. congruence.
  - cbn [no_tag]. by rewrite Ha, IH.
Qed.

(** ** Resolution of the space of a path *)

Lemma first_space_in_Some (spaces : list string) (path r : string) :
  first_space_in spaces path = Some r <->
  exists before after,
    spaces = before ++ r :: after /\ occurs_in r path /\
    Forall (fun x => ~ occurs_in x path) before.
Proof.
  induction spaces as [|space rest IH]; simpl.
  - split; [done | intros ([|??] & ? & ? & _); discriminate].
  - destruct (Py.contains space path) eqn:Hc.
    + split.
      * intros [= <-]. exists [], rest.
        split_and!; [done | by apply contains_spec | constructor].
      * intros ([|x before] & after & Heq & Hocc & Hall); simpl in Heq.
        -- by injection Heq as -> _.
        -- injection Heq as <- _.
           apply Forall_cons in Hall as [Hx _].
           apply contains_false in Hx. congruence.
    + rewrite IH. split.
      * intros (before & after & -> & Hocc & Hall).
        exists (space :: before), after. split_and!; [done..|].
        constructor; [by apply contains_false | done].
      * intros ([|x before] & after & Heq & Hocc & Hall); simpl in Heq.
        -- injection Heq as <- _. apply contains_spec in Hocc. congruence.
        -- injection Heq as <- ->.
           apply Forall_cons in Hall as [_ Hall]. by exists before, after.
Qed.

Lemma first_space_in_None (spaces : list string) (path : string) :
  first_space_in spaces path = None <->
  Forall (fun x => ~ occurs_in x path) spaces.
Proof.
  induction spaces as [|space rest IH]; simpl.
  - split; [constructor | done].
  - destruct (Py.contains space path) eqn:Hc.
    + split; [done|]. intros [Hx _]%Forall_cons.
      apply contains_false in Hx. congruence.
    + rewrite IH. split.
      * intros Hall. constructor; [by apply contains_false | done].
      * by intros [_ Hall]%Forall_cons.
Qed.

(** C1, as stated, fails: with the spaces [docs] and [docs/api] fetched in
    this order, the path [docs/api/x] resolves to [docs], although
    [docs/api] is the longest known route that is a prefix of the path. *)
Lemma get_space_route_not_longest :
  get_space_route site_nested "docs/api/x" = Some "docs" /\
  longest_prefix_match (wiki_spaces site_nested) "docs/api/x" "docs/api" /\
  ~ longest_prefix_match (wiki_spaces site_nested) "docs/api/x" "docs".
Proof.
  split; [reflexivity|]. split.
  - split; [simpl; tauto|]. split; [by exists "/x"|].
    intros r' [<-|[<-|[]]] _; simpl; lia.
  - intros (_ & _ & Hmax).
    specialize (Hmax "docs/api"). simpl in Hmax.
    assert (8 <= 4) by (apply Hmax; [tauto | by exists "/x"]). lia.
Qed.

Lemma prefix_occurs (p s : string) : prefix_of_str p s -> occurs_in p s.
Proof. intros [rest ->]. by exists EmptyString, rest. Qed.

(** C1, amended: where every known route that occurs in the path is a
    prefix of it, [get_space_route] returns the first route, in the order
    the known routes are fetched, that is a prefix of the path, whether or
    not a longer one follows, and [None] exactly when no known route is a
    prefix of the path. *)
Theorem get_space_route_first_prefix (site : Site) (path : string) :
  Forall (fun x => occurs_in x path -> prefix_of_str x path) (wiki_spaces site) ->
  (forall r,
      get_space_route site path = Some r <->
      exists before after,
        wiki_spaces site = before ++ r :: after /\ prefix_of_str r path /\
        Forall (fun x => ~ prefix_of_str x path) before) /\
  (get_space_route site path = None <->
   Forall (fun x => ~ prefix_of_str x path) (wiki_spaces site)).
Proof.
  intros Hstart.
  assert (forall l, Forall (fun x => occurs_in x path -> prefix_of_str x path) l ->
                    Forall (fun x => ~ occurs_in x path) l
                    <-> Forall (fun x => ~ prefix_of_str x path) l) as Hsame.
  { intros l Hl. rewrite !Forall_forall in *. split; intros Hno x Hx Hp.
    - apply (Hno x Hx). by apply prefix_occurs.
    - apply (Hno x Hx). by apply Hl. }
  split.
  - intros r. unfold get_space_route. rewrite first_space_in_Some. split.
    + intros (before & after & Hsplit & Hocc & Hbefore).
      rewrite Hsplit in Hstart.
      apply Forall_app in Hstart as [Hb Hr]. apply Forall_cons in Hr as [Hr _].
      exists before, after. split_and!; [done | by apply Hr | by apply Hsame].
    + intros (before & after & Hsplit & Hpre & Hbefore).
      rewrite Hsplit in Hstart. apply Forall_app in Hstart as [Hb _].
      exists before, after.
      split_and!; [done | by apply prefix_occurs | by apply Hsame].
  - unfold get_space_route. rewrite first_space_in_None. by apply Hsame.
Qed.

Lemma get_space_route_first_prefix_witness :
  get_space_route site_nested "docs/api/x" = Some "docs".
Proof.
  apply (get_space_route_first_prefix site_nested "docs/api/x").
  - repeat constructor; intros _; [by exists "/api/x" | by exists "/x"].
  - exists [], ["docs/api"]. split_and!; [done | by exists "/api/x" | constructor].
Defined.

(** ** The search query *)

Lemma split_char_no_sep (sep : ascii) (s : string) :
  has_char sep s = false -> Py.split_char sep s = [s].
Proof.
  induction s as [|a s IH]; simpl; [done|].
  intros [Ha Hs]%orb_false_iff. rewrite Ha, (IH Hs). done.
Qed.

Lemma split_char_app (sep : ascii) (p rest : string) :
  has_char sep p = false ->
  Py.split_char sep (p +:+ String sep rest) = p :: Py.split_char sep rest.
Proof.
  induction p as [|a p IH]; simpl.
  - intros _. by rewrite Ascii.eqb_refl.
  - intros [Ha Hp]%orb_false_iff. by rewrite Ha, (IH Hp).
Qed.

Lemma split_char_join (sep : ascii) (parts : list string) :
  parts <> [] ->
  Forall (fun p => has_char sep p = false) parts ->
  Py.split_char sep (Py.join (String sep EmptyString) parts) = parts.
Proof.
  induction parts as [|p [|p' ps] IH]; [done|..]; intros _ Hall.
  - apply split_char_no_sep. by apply Forall_cons in Hall as [? _].
  - apply Forall_cons in Hall as [Hp Hall].
    change (Py.join (String sep "") (p :: p' :: ps))
      with (p +:+ String sep "" +:+ Py.join (String sep "") (p' :: ps)).
    change (String sep "" +:+ ?x) with (String sep x).
    rewrite split_char_app by done. by rewrite IH.
Qed.

(** C2, as stated, fails: [cat  dog] (two spaces) has the two terms [cat]
    and [dog] when split on white space, but the code splits at every
    single space, finds an empty third piece and wraps it too. *)
Lemma search_query_not_whitespace_terms :
  whitespace_terms "cat  dog" = ["cat"; "dog"] /\
  search_query "cat  dog" = "%%cat%% %%%% %%dog%%" /\
  search_query "cat  dog" <> Py.join " " (map fuzzy (whitespace_terms "cat  dog")).
Proof. split_and!; [reflexivity | reflexivity | discriminate]. Qed.

(** C2, amended: the terms are the pieces between single space
    characters.  A query without a space gets a trailing [*] unless it ends
    with one; a query made of two or more space-free pieces (empty ones
    included) joined by single spaces becomes the pieces, each in [%%],
    joined by single spaces. *)
Theorem search_query_spec :
  (forall q, has_char " " q = false -> Py.endswith_char q "*" = false ->
             search_query q = q +:+ "*") /\
  (forall q, has_char " " q = false -> Py.endswith_char q "*" = true ->
             search_query q = q) /\
  (forall parts, 1 < length parts ->
                 Forall (fun p => has_char " " p = false) parts ->
                 search_query (Py.join " " parts) = Py.join " " (map fuzzy parts)) /\
  search_query "cat" = "cat*" /\
  search_query "cat*" = "cat*" /\
  search_query "cat dog" = "%%cat%% %%dog%%".
Proof.
  split_and!; try reflexivity.
  - intros q Hq Hstar. unfold search_query.
    rewrite (split_char_no_sep _ _ Hq). simpl. by rewrite Hstar.
  - intros q Hq Hstar. unfold search_query.
    rewrite (split_char_no_sep _ _ Hq). simpl. by rewrite Hstar.
  - intros parts Hlen Hall. unfold search_query.
    rewrite split_char_join; [| intros ->; simpl in Hlen; lia | done].
    apply Nat.ltb_lt in Hlen as ->. done.
Qed.

Lemma search_query_spec_witness :
  search_query "wiki" = "wiki*" /\
  search_query "wik*" = "wik*" /\
  search_query (Py.join " " ["a"; ""; "b"]) = "%%a%% %%%% %%b%%".
Proof.
  destruct search_query_spec as (H1 & H2 & H3 & _).
  split_and!.
  - apply (H1 "wiki"); reflexivity.
  - apply (H2 "wik*"); reflexivity.
  - apply (H3 ["a"; ""; "b"]); [simpl; lia | repeat constructor].
Defined.

(** ** The records a rebuild selects for a space *)

Lemma replace_from_skip (old new t s : string) :
  Py.replace_from old new (String.length t) (t +:+ s) = Py.replace_from old new 0 s.
Proof. induction t as [|a t IH]; simpl; [done | apply IH]. Qed.

Lemma replace_prefix (c : ascii) (o new s : string) :
  Py.replace (String c o +:+ s) (String c o) new
  = new +:+ Py.replace s (String c o) new.
Proof.
  unfold Py.replace.
  change (String c o +:+ s) with (String c (o +:+ s)).
  cbn [Py.replace_from].
  change (String c (o +:+ s)) with (String c o +:+ s).
  rewrite startswith_app.
  replace (String.length (String c o) - 1) with (String.length o) by (simpl; lia).
  by rewrite replace_from_skip.
Qed.

Lemma replace_absent (old new s : string) :
  Py.contains old s = false -> Py.replace_from old new 0 s = s.
Proof.
  induction s as [|a s IH]; [done|].
  cbn [Py.contains Py.replace_from].
  intros [-> Hs]%orb_false_iff. by rewrite (IH Hs).
Qed.

Lemma slash_nonempty (space : string) :
  exists c o, space +:+ "/" = String c o.
Proof. destruct space as [|a sp]; simpl; eauto. Qed.

Lemma eqb_app_empty (p rest : string) :
  String.eqb p (p +:+ rest) = String.eqb rest "".
Proof.
  destruct (String.eqb_spec rest "") as [->|Hne].
  - rewrite app_empty_r. apply String.eqb_refl.
  - apply String.eqb_neq. intros Heq. apply Hne.
    rewrite <- (app_empty_r p) in Heq at 1.
    by apply (inj (String.append p)) in Heq.
Qed.

(** Below the space, the condition looks at the remainder with every
    further occurrence of the space and its slash taken out. *)
Lemma under_space_below (space : string) (d : WikiPage) (rest : string) :
  route d = (space +:+ "/") +:+ rest ->
  under_space space d
  = String.eqb rest ""
    || negb (Py.startswith (Py.replace rest (space +:+ "/") "") "v").
Proof.
  intros Hroute. unfold under_space. rewrite Hroute.
  rewrite eqb_app_empty, startswith_app.
  destruct (slash_nonempty space) as (c & o & ->).
  by rewrite replace_prefix.
Qed.

Lemma under_space_prefix (space : string) (d : WikiPage) :
  under_space space d = true -> prefix_of_str (space +:+ "/") (route d).
Proof.
  unfold under_space. intros [Heq | [Hpre _]%andb_true_iff]%orb_true_iff.
  - apply String.eqb_eq in Heq. exists EmptyString. by rewrite app_empty_r.
  - by apply startswith_spec.
Qed.

Lemma first_segment_version (rest : string) :
  begins_with_v (first_segment rest) = Py.startswith rest "v".
Proof.
  destruct rest as [|a rest]; [done|].
  unfold begins_with_v. simpl.
  destruct (Ascii.eqb_spec a "/") as [->|_]; [done|].
  simpl. by destruct (Ascii.eqb "v" a).
Qed.

Lemma under_space_falls_under (space : string) (d : WikiPage) :
  ~ (exists rest, route d = (space +:+ "/") +:+ rest /\ occurs_in (space +:+ "/") rest) ->
  under_space space d = true <-> falls_under begins_with_v space d.
Proof.
  intros Hnot. split.
  - intros Hu. destruct (under_space_prefix _ _ Hu) as [rest Hrest].
    rewrite (under_space_below _ _ _ Hrest) in Hu.
    assert (Py.contains (space +:+ "/") rest = false) as Habs.
    { apply contains_false. intros Hocc. apply Hnot. eauto. }
    destruct (slash_nonempty space) as (c & o & Hold).
    rewrite Hold in Hu, Habs. unfold Py.replace in Hu.
    rewrite (replace_absent _ _ _ Habs) in Hu.
    apply orb_true_iff in Hu as [Hemp | Hv].
    + left. apply String.eqb_eq in Hemp. subst rest.
      by rewrite app_empty_r in Hrest.
    + right. exists rest. rewrite first_segment_version.
      rewrite <- app_assoc_str. split; [done|]. by apply negb_true_iff.
  - intros [Hroute | (rest & Hroute & Hv)].
    + unfold under_space. rewrite Hroute, String.eqb_refl. done.
    + rewrite <- app_assoc_str in Hroute.
      rewrite (under_space_below _ _ _ Hroute).
      assert (Py.contains (space +:+ "/") rest = false) as Habs.
      { apply contains_false. intros Hocc. apply Hnot. eauto. }
      destruct (slash_nonempty space) as (c & o & Hold).
      rewrite Hold in Habs |- *. unfold Py.replace.
      rewrite (replace_absent _ _ _ Habs).
      rewrite first_segment_version in Hv. rewrite Hv. apply orb_true_r.
Qed.

(** C5, as stated, fails twice under the space [docs].  The first segment
    of [docs/vocabulary] below the space is no version marker, and the page
    is left out because the segment begins with [v].  The first segment of
    [docs/docs/v2/intro] below the space is [docs], and the page is left
    out because the test runs on the route with every [docs/] removed. *)
Lemma records_to_index_drops_more :
  (falls_under version_marker "docs" (page "p3" "docs/vocabulary") /\
   records_to_index [page "p3" "docs/vocabulary"] "docs" = []) /\
  (falls_under begins_with_v "docs" (page "p1" "docs/docs/v2/intro") /\
   records_to_index [page "p1" "docs/docs/v2/intro"] "docs" = []).
Proof.
  split; (split; [|reflexivity]); right.
  - by exists "vocabulary".
  - by exists "docs/v2/intro".
Qed.

(** C5, amended: for a page in whose route the space followed by [/] does
    not occur again after the leading one, the rebuild selects the page
    exactly when its route is the space followed by [/], or starts with it
    and goes on with a segment that does not begin with [v]; the route
    [docs/v2/intro] is left out of the space [docs]. *)
Theorem records_to_index_selection
        (pages : list WikiPage) (space : string) (d : WikiPage) :
  (~ (exists rest, route d = (space +:+ "/") +:+ rest /\
                   occurs_in (space +:+ "/") rest) ->
   In d (records_to_index pages space)
   <-> In d pages /\ falls_under begins_with_v space d) /\
  (route d = "docs/v2/intro" -> ~ In d (records_to_index pages "docs")).
Proof.
  split.
  - intros Hnot. unfold records_to_index. rewrite filter_In.
    by rewrite (under_space_falls_under _ _ Hnot).
  - intros Hroute [_ Hu]%filter_In.
    unfold under_space in Hu. rewrite Hroute in Hu. discriminate.
Qed.

Lemma records_to_index_selection_witness :
  (In (page "p1" "docs/intro")
      (records_to_index [page "p1" "docs/intro"; page "p2" "docs/v2/intro"] "docs")
   <-> In (page "p1" "docs/intro") [page "p1" "docs/intro"; page "p2" "docs/v2/intro"]
       /\ falls_under begins_with_v "docs" (page "p1" "docs/intro")) /\
  ~ In (page "p2" "docs/v2/intro")
      (records_to_index [page "p1" "docs/intro"; page "p2" "docs/v2/intro"] "docs").
Proof.
  split.
  - apply (records_to_index_selection _ "docs" (page "p1" "docs/intro")).
    intros (rest & Hroute & Hocc).
    injection Hroute as <-. apply contains_spec in Hocc. discriminate.
  - by apply (records_to_index_selection _ "docs" (page "p2" "docs/v2/intro")).
Defined.

(** C10 at the input where the code departs from it: under the space [v2]
    the remainder of the route [v2/v2/intro] is [v2/intro], whose first
    segment begins with [v]; the code removes every [v2/] from the route,
    tests [intro] and selects the page. *)
Lemma records_to_index_keeps_v_segment :
  route (page "p1" "v2/v2/intro") = ("v2" +:+ "/") +:+ "v2/intro" /\
  begins_with_v (first_segment "v2/intro") = true /\
  Py.replace "v2/v2/intro" "v2/" "" = "intro" /\
  records_to_index [page "p1" "v2/v2/intro"] "v2" = [page "p1" "v2/v2/intro"].
Proof. split_and!; reflexivity. Qed.

(** Where the space does not itself begin with [v], a page whose first
    segment below the space begins with [v] is left out, whatever follows:
    [docs/vocabulary] is left out of [docs] like [docs/v2/intro]. *)
Lemma records_to_index_excludes_v
      (pages : list WikiPage) (space : string) (d : WikiPage) (rest : string) :
  Py.startswith space "v" = false ->
  route d = (space +:+ "/") +:+ rest ->
  begins_with_v (first_segment rest) = true ->
  ~ In d (records_to_index pages space).
Proof.
  intros Hspace Hroute Hv [_ Hu]%filter_In.
  rewrite (under_space_below _ _ _ Hroute) in Hu.
  rewrite first_segment_version in Hv.
  destruct rest as [|a rest]; [simpl in Hv; discriminate|].
  cbn [Py.startswith] in Hv. destruct (Ascii.eqb_spec "v" a) as [<-|]; [|discriminate].
  assert (Py.startswith (String "v" rest) (space +:+ "/") = false) as Hno.
  { destruct space as [|b sp]; [done|].
    cbn [Py.startswith String.append] in Hspace |- *.
    rewrite Ascii.eqb_sym. by destruct (Ascii.eqb "v" b). }
  destruct (slash_nonempty space) as (c & o & Hold).
  rewrite Hold in Hu, Hno. unfold Py.replace in Hu.
  cbn [Py.replace_from] in Hu. rewrite Hno in Hu. discriminate.
Qed.

Example records_to_index_excludes_vocabulary :
  ~ In (page "p3" "docs/vocabulary")
      (records_to_index [page "p3" "docs/vocabulary"] "docs").
Proof.
  apply (records_to_index_excludes_v _ "docs" _ "vocabulary"); reflexivity.
Qed.

(** ** Runs of the operations over any backend *)

Section Runs.

Context {B : Type} `{Backend B}.
Variable site : Site.
Variable strip_html_tags : string -> string.

Lemma extends_refl (w : World B) : extends w w [].
Proof. unfold extends. by rewrite app_nil_r. Qed.

Lemma extends_trans (w1 w2 w3 : World B) (e1 e2 : list Event) :
  extends w1 w2 e1 -> extends w2 w3 e2 -> extends w1 w3 (e1 ++ e2).
Proof.
  intros (Hc1 & Hj1 & Ht1) (Hc2 & Hj2 & Ht2). unfold extends.
  rewrite Hc2, Hj2, Ht2, Hc1, Hj1, Ht1. by rewrite app_assoc.
Qed.

(** A command either goes through or is raised; the trace records which. *)
Lemma send_run (c : Command) (w : World B) :
  (exists b', exec c (redis w) = inr b' /\
              send c w = (Returned tt,
                          mkWorld (cache w) b' (jobs w) (trace w ++ [Redis c None])))
  \/ (exists e, exec c (redis w) = inl e /\
                send c w = (Raised e,
                            mkWorld (cache w) (redis w) (jobs w)
                                    (trace w ++ [Redis c (Some e)]))).
Proof.
  unfold send. destruct (exec c (redis w)) as [e|b'] eqn:Hexec.
  - right. eauto.
  - left. eauto.
Qed.

(** [drop_index] returns whatever the backend answers. *)
Lemma drop_index_run (space : string) (w : World B) :
  exists answer w',
    drop_index site space w = (Returned tt, w') /\
    extends w w' [Redis (FtDropIndex (index_name site (Some space))) answer].
Proof.
  unfold drop_index, try_except.
  destruct (send_run (FtDropIndex (index_name site (Some space))) w)
    as [(b' & _ & ->) | (e & _ & ->)].
  - exists None. eexists. split; [done|]. by unfold extends.
  - exists (Some e). eexists. split; [done|]. by unfold extends.
Qed.

(** The loop of [create_index_for_records]: the records are written in
    order until the backend refuses one. *)
Lemma index_from_run (total : nat) (space : option string) (i : nat)
      (records : list WikiPage) (w : World B) :
  exists evs w',
    extends w w' evs /\ forallb went_through evs = true /\
    ((index_from site strip_html_tags total space i records w = (Returned tt, w') /\
      commands_of evs = map (hset_of site strip_html_tags space) records)
     \/ (exists c e w'',
            index_from site strip_html_tags total space i records w = (Raised e, w'') /\
            extends w' w'' [Redis c (Some e)] /\
            (commands_of evs ++ [c])
              `prefix_of` map (hset_of site strip_html_tags space) records)).
Proof.
  revert i w. induction records as [|d rest IH]; intros i w.
  - exists [], w. split_and!; [apply extends_refl | done |]. by left.
  - cbn [index_from].
    set (bar := if negb (has_request site) && (10 <? total)
                then emit (ProgressBar ("Indexing Wiki Pages - " +:+ Py.format space) i total)
                else ret tt).
    assert (exists pb w1, bar w = (Returned tt, w1) /\ extends w w1 pb /\
                          forallb went_through pb = true /\ commands_of pb = [])
      as (pb & w1 & Hbar & Hext1 & Hpb & Hcpb).
    { subst bar. destruct (negb (has_request site) && (10 <? total)).
      - eexists [_], _. split; [reflexivity|]. by unfold extends.
      - exists [], w. split; [reflexivity|]. split; [apply extends_refl | done]. }
    unfold bind. rewrite Hbar.
    set (c := HSet (record_key site space (name d)) (mapping_of strip_html_tags d)).
    destruct (send_run c w1) as [(b' & _ & ->) | (e & _ & ->)].
    + set (w2 := mkWorld (cache w1) b' (jobs w1) (trace w1 ++ [Redis c None])).
      destruct (IH (S i) w2) as (evs & w' & Hext & Hthrough & Hcases).
      exists (pb ++ [Redis c None] ++ evs), w'. split_and!.
      * eapply extends_trans; [exact Hext1|].
        eapply extends_trans; [|exact Hext]. by unfold extends.
      * rewrite !forallb_app, Hpb, Hthrough. done.
      * unfold commands_of in *. rewrite !omap_app, Hcpb. simpl.
        destruct Hcases as [[-> ->] | (c' & e & w'' & -> & Hext' & Hpre)].
        -- by left.
        -- right. exists c', e, w''. split_and!; [done..|].
           by apply prefix_cons.
    + exists pb, w1. split_and!; [done..|]. right.
      exists c, e. eexists. split_and!; [done | by unfold extends |].
      unfold commands_of in *. rewrite Hcpb. simpl.
      apply prefix_cons, prefix_nil.
Qed.

(** One turn of the rebuild loop always returns; its trace is the
    segment of its space. *)
Lemma rebuild_space_run (space : string) (w : World B) :
  exists seg w',
    rebuild_space site strip_html_tags (wiki_pages site) space w = (Returned tt, w') /\
    extends w w' seg /\
    space_segment site strip_html_tags space seg.
Proof.
  unfold rebuild_space, try_except.
  destruct (drop_index_run space w) as (answer & w1 & Hdrop & Hext1).
  unfold bind at 1. rewrite Hdrop. unfold bind at 1.
  set (create := FtCreateIndex (index_name site (Some space))
                               [make_key site (PREFIX +:+ space) +:+ ":"]).
  destruct (send_run create w1) as [(b' & _ & ->) | (e & _ & ->)].
  - set (w2 := mkWorld (cache w1) b' (jobs w1) (trace w1 ++ [Redis create None])).
    unfold create_index_for_records.
    destruct (index_from_run
                (length (records_to_index (wiki_pages site) space))
                (Some space) 0 (records_to_index (wiki_pages site) space) w2)
      as (evs & w3 & Hext3 & Hthrough & [[-> Hcmds] | (c & e & w4 & -> & Hext4 & Hpre)]).
    + eexists _, w3. split; [done|]. split.
      * eapply extends_trans; [exact Hext1|].
        eapply extends_trans; [|exact Hext3]. by unfold extends.
      * exists answer, ([Redis create None] ++ evs). split; [done|].
        apply run_complete; [done|].
        unfold script_of. simpl. by rewrite <- Hcmds.
    + unfold print, emit. eexists _, _. split; [done|]. split.
      * destruct Hext1 as (Hc1 & Hj1 & Ht1). destruct Hext3 as (Hc3 & Hj3 & Ht3).
        destruct Hext4 as (Hc4 & Hj4 & Ht4). unfold extends. simpl.
        rewrite Hc4, Hj4, Ht4, Hc3, Hj3, Ht3. simpl. rewrite Hc1, Hj1, Ht1.
        split_and!; [done..|].
        rewrite <- !app_assoc. simpl. reflexivity.
      * exists answer, ((Redis create None :: evs) ++ [Redis c (Some e); Print (message e)]).
        split; [done|]. apply run_reported; [done|].
        unfold script_of. simpl. by apply prefix_cons.
  - unfold print, emit. eexists _, _. split; [done|]. split.
    + destruct Hext1 as (Hc1 & Hj1 & Ht1). unfold extends. simpl.
      rewrite Hc1, Hj1, Ht1. split_and!; [done..|].
      rewrite <- !app_assoc. simpl. reflexivity.
    + exists answer, ([] ++ [Redis create (Some e); Print (message e)]).
      split; [done|]. apply run_reported; [done|].
      unfold script_of. simpl. apply prefix_cons, prefix_nil.
Qed.

(** The whole loop: one segment per space, in the order of the spaces. *)
Lemma rebuild_loop_run (spaces : list string) (w : World B) :
  exists segs w',
    for_each (rebuild_space site strip_html_tags (wiki_pages site)) spaces w
    = (Returned tt, w') /\
    extends w w' (concat segs) /\
    Forall2 (space_segment site strip_html_tags) spaces segs.
Proof.
  revert w. induction spaces as [|space rest IH]; intros w.
  - exists [], w. split_and!; [done | apply extends_refl | constructor].
  - cbn [for_each]. unfold bind.
    destruct (rebuild_space_run space w) as (seg & w1 & -> & Hext1 & Hseg).
    destruct (IH w1) as (segs & w' & -> & Hext & Hsegs).
    exists (seg :: segs), w'. split_and!; [done | | by constructor].
    simpl. by eapply extends_trans.
Qed.

End Runs.

(** ** The backend state along a run *)

Section Tracks.

Context {B : Type} `{Backend B}.

Lemma plays_app (b1 b2 b3 : B) (e1 e2 : list Event) :
  plays b1 e1 b2 -> plays b2 e2 b3 -> plays b1 (e1 ++ e2) b3.
Proof.
  induction 1 as [b | b c b' evs b'' Hexec _ IH | b c e evs b'' Hexec _ IH
                  | b ev evs b'' Hev _ IH]; intros H2; cbn [app].
  - done.
  - eapply plays_accepted; eauto.
  - eapply plays_refused; eauto.
  - eapply plays_silent; eauto.
Qed.

Lemma tracks_ret {A : Type} (a : A) : tracks (ret a).
Proof. intros w. exists []. cbn. rewrite app_nil_r. split; [done | constructor]. Qed.

Lemma tracks_emit (ev : Event) : commands_of [ev] = [] -> tracks (emit ev).
Proof.
  intros Hev w. exists [ev]. cbn. split; [done|].
  apply plays_silent; [done | constructor].
Qed.

Lemma tracks_set_value (key : string) (value : bool) : tracks (set_value key value).
Proof.
  intros w. exists [SetValue key value]. cbn. split; [done|].
  apply plays_silent; [done | constructor].
Qed.

Lemma tracks_send (c : Command) : tracks (send c).
Proof.
  intros w. unfold send. destruct (exec c (redis w)) as [e|b'] eqn:Hexec; cbn.
  - exists [Redis c (Some e)]. split; [done|]. eapply plays_refused; [done | constructor].
  - exists [Redis c None]. split; [done|]. eapply plays_accepted; [done | constructor].
Qed.

Lemma tracks_bind {A C : Type} (m : M B A) (k : A -> M B C) :
  tracks m -> (forall a, tracks (k a)) -> tracks (bind m k).
Proof.
  intros Hm Hk w. unfold bind. destruct (Hm w) as (e1 & Ht1 & Hp1).
  destruct (m w) as [[a|e] w1]; cbn [snd] in *.
  - destruct (Hk a w1) as (e2 & Ht2 & Hp2). exists (e1 ++ e2). split.
    + by rewrite Ht2, Ht1, app_assoc.
    + by eapply plays_app.
  - by exists e1.
Qed.

Lemma tracks_try_except {A : Type} (body : M B A) (handler : exn -> M B A) :
  tracks body -> (forall e, tracks (handler e)) -> tracks (try_except body handler).
Proof.
  intros Hm Hk w. unfold try_except. destruct (Hm w) as (e1 & Ht1 & Hp1).
  destruct (body w) as [[a|e] w1]; cbn [snd] in *.
  - by exists e1.
  - destruct (Hk e w1) as (e2 & Ht2 & Hp2). exists (e1 ++ e2). split.
    + by rewrite Ht2, Ht1, app_assoc.
    + by eapply plays_app.
Qed.

Lemma tracks_for_each {A : Type} (body : A -> M B unit) (xs : list A) :
  (forall x, tracks (body x)) -> tracks (for_each body xs).
Proof.
  intros Hbody. induction xs as [|x rest IH]; cbn [for_each].
  - apply tracks_ret.
  - apply tracks_bind; [apply Hbody | intros _; apply IH].
Qed.

Variable site : Site.
Variable strip_html_tags : string -> string.

Lemma tracks_drop_index (space : string) : tracks (drop_index site space).
Proof.
  apply tracks_try_except; [apply tracks_send | intros _; apply tracks_ret].
Qed.

Lemma tracks_index_from (total : nat) (space : option string) (i : nat)
      (records : list WikiPage) :
  tracks (index_from site strip_html_tags total space i records).
Proof.
  revert i. induction records as [|d rest IH]; intros i; cbn [index_from].
  - apply tracks_ret.
  - apply tracks_bind.
    + destruct (negb (has_request site) && (10 <? total));
        [by apply tracks_emit | apply tracks_ret].
    + intros _. apply tracks_bind; [apply tracks_send | intros _; apply IH].
Qed.

Lemma tracks_rebuild_space (pages : list WikiPage) (space : string) :
  tracks (rebuild_space site strip_html_tags pages space).
Proof.
  apply tracks_try_except.
  - apply tracks_bind; [apply tracks_drop_index|]. intros _.
    apply tracks_bind; [apply tracks_send|]. intros _. apply tracks_index_from.
  - intros e. by apply tracks_emit.
Qed.

Lemma tracks_rebuild_index : tracks (rebuild_index site strip_html_tags).
Proof.
  apply tracks_bind; [apply tracks_set_value|]. intros _.
  apply tracks_bind; [|intros _; apply tracks_set_value].
  apply tracks_for_each. intros space. apply tracks_rebuild_space.
Qed.

End Tracks.

Lemma send_hset_redis (key : string) (mapping : list (string * string))
      (w : World RediSearch) :
  send (HSet key mapping) w
  = (Returned tt,
     mkWorld (cache w)
             {| indexes := indexes (redis w);
                hashes := <[key := list_to_map mapping ∪ default ∅ (hashes (redis w) !! key)]>
                            (hashes (redis w)) |}
             (jobs w) (trace w ++ [Redis (HSet key mapping) None])).
Proof. reflexivity. Qed.

Lemma send_create_redis (index : string) (prefixes : list string)
      (w : World RediSearch) :
  indexes (redis w) !! index = None ->
  send (FtCreateIndex index prefixes) w
  = (Returned tt,
     mkWorld (cache w)
             {| indexes := <[index := prefixes]> (indexes (redis w));
                hashes := hashes (redis w) |}
             (jobs w) (trace w ++ [Redis (FtCreateIndex index prefixes) None])).
Proof.
  intros Hidx. unfold send, exec, redisearch_backend. cbn [redisearch_exec].
  by rewrite Hidx.
Qed.

(** ** The rebuild *)

(** The second of three spaces is refused its index: the error is printed
    and the third space is rebuilt all the same. *)
Example rebuild_index_refused_ex :
  @rebuild_index unit (refusing "wiki|b") site_abc strip_html_tags_re
                 (world_of tt None)
  = (Returned tt,
     mkWorld (<[IN_PROGRESS := false]> (<[IN_PROGRESS := true]> ∅)) tt []
       [ SetValue IN_PROGRESS true;
         Redis (FtDropIndex "wiki|a") None;
         Redis (FtCreateIndex "wiki|a" ["wiki|wiki_page_search_doca:"]) None;
         Redis (HSet "wiki|wiki_page_search_doca:p1"
                     [("title", "A"); ("content", "a"); ("route", "a/x")]) None;
         Redis (FtDropIndex "wiki|b") None;
         Redis (FtCreateIndex "wiki|b" ["wiki|wiki_page_search_docb:"])
               (Some (ResponseError "Index already exists"));
         Print "Index already exists";
         Redis (FtDropIndex "wiki|c") None;
         Redis (FtCreateIndex "wiki|c" ["wiki|wiki_page_search_docc:"]) None;
         Redis (HSet "wiki|wiki_page_search_docc:p3"
                     [("title", "C"); ("content", "c"); ("route", "c/x")]) None;
         SetValue IN_PROGRESS false ]).
Proof. reflexivity. Qed.

(** C3, as stated, fails: when the backend refuses the drop of every
    index, three errors are raised during the rebuild and none is printed,
    and after each refused drop the rebuild does not go to the next space
    but goes on with the same one, creating its index and writing its
    page. *)
Lemma rebuild_index_swallows_drop :
  @rebuild_index unit refusing_drop site_abc strip_html_tags_re (world_of tt None)
  = (Returned tt,
     mkWorld (<[IN_PROGRESS := false]> (<[IN_PROGRESS := true]> ∅)) tt []
       [ SetValue IN_PROGRESS true;
         Redis (FtDropIndex "wiki|a") (Some (ResponseError "Unknown Index name"));
         Redis (FtCreateIndex "wiki|a" ["wiki|wiki_page_search_doca:"]) None;
         Redis (HSet "wiki|wiki_page_search_doca:p1"
                     [("title", "A"); ("content", "a"); ("route", "a/x")]) None;
         Redis (FtDropIndex "wiki|b") (Some (ResponseError "Unknown Index name"));
         Redis (FtCreateIndex "wiki|b" ["wiki|wiki_page_search_docb:"]) None;
         Redis (HSet "wiki|wiki_page_search_docb:p2"
                     [("title", "B"); ("content", "b"); ("route", "b/x")]) None;
         Redis (FtDropIndex "wiki|c") (Some (ResponseError "Unknown Index name"));
         Redis (FtCreateIndex "wiki|c" ["wiki|wiki_page_search_docc:"]) None;
         Redis (HSet "wiki|wiki_page_search_docc:p3"
                     [("title", "C"); ("content", "c"); ("route", "c/x")]) None;
         SetValue IN_PROGRESS false ]) /\
  printed_of
    (trace (snd (@rebuild_index unit refusing_drop site_abc strip_html_tags_re
                   (world_of tt None)))) = [].
Proof. split; reflexivity. Qed.

(** C3, amended: over any backend, whatever it refuses, a rebuild returns
    normally; it first sets the flag, then runs every space in order and
    last clears the flag.  For each space it sends the drop of its index
    and goes on with the same space whatever the answer, a refusal of the
    drop being swallowed unprinted; then it sends the creation of the index
    and the writes of the selected pages, up to the first of these that is
    refused, whose error is printed before the next space starts.  The
    backend ends in the state that the commands of the trace, with the
    answers recorded there, lead to from the state at the start. *)
Theorem rebuild_index_isolates_failures
        {B : Type} `{Backend B} (site : Site) (strip_html_tags : string -> string)
        (w : World B) :
  exists segs w',
    rebuild_index site strip_html_tags w = (Returned tt, w') /\
    cache w' !! IN_PROGRESS = Some false /\
    jobs w' = jobs w /\
    trace w' = trace w ++ [SetValue IN_PROGRESS true] ++ concat segs
                       ++ [SetValue IN_PROGRESS false] /\
    Forall2 (space_segment site strip_html_tags) (wiki_spaces site) segs /\
    plays (redis w)
          ([SetValue IN_PROGRESS true] ++ concat segs ++ [SetValue IN_PROGRESS false])
          (redis w').
Proof.
  destruct (tracks_rebuild_index site strip_html_tags w) as (evs & Htrace & Hplays).
  revert Htrace Hplays.
  unfold rebuild_index, bind, set_value.
  set (w1 := mkWorld (<[IN_PROGRESS:=true]> (cache w)) (redis w) (jobs w)
                     (trace w ++ [SetValue IN_PROGRESS true])).
  destruct (rebuild_loop_run site strip_html_tags (wiki_spaces site) w1)
    as (segs & w2 & -> & (Hc & Hj & Ht) & Hsegs).
  cbn [snd trace redis]. intros Htrace Hplays.
  assert (trace w2 ++ [SetValue IN_PROGRESS false]
          = trace w ++ [SetValue IN_PROGRESS true] ++ concat segs
                    ++ [SetValue IN_PROGRESS false]) as Hwhole.
  { rewrite Ht. simpl. by rewrite <- !app_assoc. }
  exists segs. eexists. split; [reflexivity|]. cbn [cache jobs trace redis].
  split_and!.
  - apply lookup_insert_eq.
  - by rewrite Hj.
  - exact Hwhole.
  - done.
  - rewrite Hwhole in Htrace. apply app_inv_head in Htrace. by rewrite Htrace.
Qed.

(** C4: with the flag set, the background entry point changes nothing and
    queues nothing, also when called twice in a row; with the flag clear or
    absent it queues exactly one rebuild on the long queue. *)
Theorem rebuild_index_in_background_admission
        {B : Type} (site : Site) (w : World B) :
  (cache w !! IN_PROGRESS = Some true ->
   rebuild_index_in_background site w = (Returned tt, w) /\
   bind (rebuild_index_in_background site)
        (fun _ => rebuild_index_in_background site) w = (Returned tt, w)) /\
  (cache w !! IN_PROGRESS <> Some true ->
   exists w',
     rebuild_index_in_background site w = (Returned tt, w') /\
     jobs w' = jobs w ++ [{| task := RebuildIndex; queue := "long" |}] /\
     cache w' = cache w /\ redis w' = redis w).
Proof.
  unfold rebuild_index_in_background, bind, get_value. split.
  - intros Hflag. rewrite Hflag. simpl. unfold ret. rewrite Hflag. done.
  - intros Hflag. destruct (cache w !! IN_PROGRESS) as [[|]|]; [done|..];
      simpl; eexists; (split; [reflexivity|done]).
Qed.

Lemma rebuild_index_in_background_admission_witness :
  jobs (snd (rebuild_index_in_background site_docs (world_of empty_redis (Some true)))) = []
  /\ jobs (snd (rebuild_index_in_background site_docs (world_of empty_redis (Some false))))
     = [{| task := RebuildIndex; queue := "long" |}].
Proof.
  split.
  - destruct (rebuild_index_in_background_admission
                site_docs (world_of empty_redis (Some true))) as [Hbusy _].
    rewrite (proj1 (Hbusy (lookup_singleton_eq _ _))). reflexivity.
  - destruct (rebuild_index_in_background_admission
                site_docs (world_of empty_redis (Some false))) as [_ Hidle].
    assert (cache (world_of empty_redis (Some false)) !! IN_PROGRESS <> Some true)
      as Hclear by (simpl; rewrite lookup_singleton_eq; discriminate).
    destruct (Hidle Hclear) as (w' & Hrun & Hjobs & _).
    rewrite Hrun. simpl. rewrite Hjobs. reflexivity.
Defined.

(** ** Dropping an index *)

Lemma indexed_by_record_key (site : Site) (space page_name : string) :
  indexed_by [make_key site (PREFIX +:+ space) +:+ ":"]
             (record_key site (Some space) page_name) = true.
Proof.
  unfold indexed_by. cbn [existsb]. rewrite orb_false_r.
  apply startswith_spec. exists page_name.
  unfold record_key, make_key. cbn [Py.format].
  by rewrite !app_assoc_str.
Qed.

(** C7: over any backend [drop_index] sends the one drop of the space's
    index with its documents and returns normally whatever the answer.
    Against RediSearch the index is gone afterwards, and with it every hash
    under its prefixes, so every record of the space when the index is the
    one a rebuild registers; a missing index leaves Redis as it was. *)
Theorem drop_index_spec :
  (forall (B : Type) (backend : Backend B) (site : Site) (space : string) (w : World B),
      exists answer w',
        drop_index site space w = (Returned tt, w') /\
        extends w w' [Redis (FtDropIndex (index_name site (Some space))) answer]) /\
  (forall (site : Site) (space : string) (w : World RediSearch),
      let idx := index_name site (Some space) in
      let w' := snd (drop_index site space w) in
      fst (drop_index site space w) = Returned tt /\
      indexes (redis w') !! idx = None /\
      (forall prefixes key,
          indexes (redis w) !! idx = Some prefixes ->
          indexed_by prefixes key = true ->
          hashes (redis w') !! key = None) /\
      (indexes (redis w) !! idx = Some [make_key site (PREFIX +:+ space) +:+ ":"] ->
       forall page_name,
         hashes (redis w') !! record_key site (Some space) page_name = None) /\
      (indexes (redis w) !! idx = None -> redis w' = redis w)).
Proof.
  split.
  - intros B backend site space w. apply drop_index_run.
  - intros site space w idx w'.
    assert (forall prefixes key,
               indexes (redis w) !! idx = Some prefixes ->
               indexed_by prefixes key = true ->
               hashes (redis w') !! key = None) as Hgone.
    { intros prefixes key Hidx Hkey. subst w'.
      unfold drop_index, try_except, send, exec, redisearch_backend. fold idx.
      cbn [redisearch_exec]. rewrite Hidx. cbn.
      apply map_lookup_filter_None. right. intros m _. cbn. congruence. }
    split_and!.
    + unfold drop_index, try_except, send, exec, redisearch_backend. fold idx.
      cbn [redisearch_exec]. by destruct (indexes (redis w) !! idx).
    + subst w'. unfold drop_index, try_except, send, exec, redisearch_backend.
      fold idx. cbn [redisearch_exec].
      destruct (indexes (redis w) !! idx) eqn:Hidx; cbn; [|done].
      apply lookup_delete_eq.
    + exact Hgone.
    + intros Hidx page_name. eapply Hgone; [exact Hidx|].
      apply indexed_by_record_key.
    + intros Hidx. subst w'.
      unfold drop_index, try_except, send, exec, redisearch_backend. fold idx.
      cbn [redisearch_exec]. by rewrite Hidx.
Qed.

Lemma drop_index_spec_witness :
  let w := world_of {| indexes := {[ "wiki|docs" := ["wiki|wiki_page_search_docdocs:"] ]};
                       hashes := {[ "wiki|wiki_page_search_docdocs:p1" :=
                                      {[ "title" := "Intro" ]} ]} |} None in
  hashes (redis (snd (drop_index site_docs "docs" w)))
    !! record_key site_docs (Some "docs") "p1" = None.
Proof.
  intros w.
  destruct drop_index_spec as [_ Hredis].
  destruct (Hredis site_docs "docs" w) as (_ & _ & _ & Hrecords & _).
  apply Hrecords. reflexivity.
Defined.

(** ** Removing records *)

(** Over any backend every record is tried, refused or not. *)
Lemma remove_index_for_records_run
      {B : Type} `{Backend B} (site : Site) (records : list WikiPage)
      (space : option string) (w : World B) :
  exists answers w',
    remove_index_for_records site records space w = (Returned tt, w') /\
    extends w w' (zip_with (fun d a => Redis (delete_of site space d) a) records answers) /\
    length answers = length records.
Proof.
  unfold remove_index_for_records. revert w.
  induction records as [|d rest IH]; intros w.
  - exists [], w. split_and!; [done | apply extends_refl | done].
  - cbn [for_each]. unfold bind, try_except at 1.
    fold (delete_of site space d).
    destruct (send_run (delete_of site space d) w) as [(b' & _ & ->) | (e & _ & ->)].
    + destruct (IH (mkWorld (cache w) b' (jobs w)
                            (trace w ++ [Redis (delete_of site space d) None])))
        as (answers & w' & -> & Hext & Hlen).
      exists (None :: answers), w'. split_and!; [done | | simpl; lia].
      eapply (extends_trans _ _ _ [_]); [|exact Hext]. by unfold extends.
    + cbv beta. unfold ret at 1.
      destruct (IH (mkWorld (cache w) (redis w) (jobs w)
                            (trace w ++ [Redis (delete_of site space d) (Some e)])))
        as (answers & w' & -> & Hext & Hlen).
      exists (Some e :: answers), w'. split_and!; [done | | simpl; lia].
      eapply (extends_trans _ _ _ [_]); [|exact Hext]. by unfold extends.
Qed.

(** Against RediSearch the first record of a removal costs its key when
    the space's index holds it; the loop goes on in any case. *)
Lemma remove_index_for_records_step
      (site : Site) (d : WikiPage) (rest : list WikiPage) (space : option string)
      (w : World RediSearch) :
  exists w1,
    remove_index_for_records site (d :: rest) space w
    = remove_index_for_records site rest space w1 /\
    indexes (redis w1) = indexes (redis w) /\
    hashes (redis w1)
    = match indexes (redis w) !! index_name site space with
      | Some prefixes =>
          if indexed_by prefixes (record_key site space (name d))
          then delete (record_key site space (name d)) (hashes (redis w))
          else hashes (redis w)
      | None => hashes (redis w)
      end.
Proof.
  unfold remove_index_for_records. cbn [for_each].
  unfold bind, try_except at 1, send at 1.
  unfold exec, redisearch_backend. cbn [redisearch_exec].
  destruct (indexes (redis w) !! index_name site space) as [prefixes|] eqn:Hidx.
  - eexists. split; [reflexivity|]. done.
  - cbv beta. unfold ret at 1. eexists. split; [reflexivity|]. done.
Qed.

(** Against RediSearch a removal keeps the indexes and deletes the record
    keys the space's index holds, nothing else. *)
Lemma remove_index_for_records_redis
      (site : Site) (records : list WikiPage) (space : option string)
      (w : World RediSearch) :
  indexes (redis (snd (remove_index_for_records site records space w)))
  = indexes (redis w) /\
  forall key,
    hashes (redis (snd (remove_index_for_records site records space w))) !! key
    = if removed_key site space (indexes (redis w)) records key
      then None else hashes (redis w) !! key.
Proof.
  revert w. induction records as [|d rest IH]; intros w.
  - cbn. split; [done|]. intros key. unfold removed_key.
    destruct (indexes (redis w) !! index_name site space); [|done].
    cbn. by rewrite andb_false_r.
  - destruct (remove_index_for_records_step site d rest space w)
      as (w1 & -> & Hi1 & Hh1).
    destruct (IH w1) as [Hi Hh]. rewrite Hi, Hi1. split; [done|].
    intros key. rewrite Hh, Hi1, Hh1. unfold removed_key.
    destruct (indexes (redis w) !! index_name site space) as [prefixes|] eqn:Hidx;
      [|done].
    cbn [existsb].
    destruct (indexed_by prefixes key) eqn:Hkey; cbn [andb].
    + destruct (existsb _ rest); [by rewrite orb_true_r|]. rewrite orb_false_r.
      destruct (String.eqb_spec key (record_key site space (name d))) as [->|Hne].
      * rewrite Hkey. apply lookup_delete_eq.
      * destruct (indexed_by prefixes (record_key site space (name d))); [|done].
        by apply lookup_delete_ne.
    + destruct (indexed_by prefixes (record_key site space (name d))) eqn:Hd; [|done].
      apply lookup_delete_ne. intros <-. congruence.
Qed.

Lemma redisearch_eq (r1 r2 : RediSearch) :
  indexes r1 = indexes r2 -> hashes r1 = hashes r2 -> r1 = r2.
Proof. destruct r1, r2. simpl. by intros -> ->. Qed.

(** C6: over any backend a removal returns normally and sends the deletion
    of every record's key, whatever is answered; against RediSearch a
    second removal of the same records leaves Redis as the first one left
    it. *)
Theorem remove_index_for_records_never_raises :
  (forall (B : Type) (backend : Backend B) (site : Site) (records : list WikiPage)
          (space : option string) (w : World B),
      exists answers w',
        remove_index_for_records site records space w = (Returned tt, w') /\
        extends w w' (zip_with (fun d a => Redis (delete_of site space d) a)
                               records answers) /\
        length answers = length records) /\
  (forall (site : Site) (records : list WikiPage) (space : option string)
          (w : World RediSearch),
      let once := snd (remove_index_for_records site records space w) in
      let twice := snd (remove_index_for_records site records space once) in
      fst (remove_index_for_records site records space once) = Returned tt /\
      redis twice = redis once).
Proof.
  split.
  - intros B backend site records space w. apply remove_index_for_records_run.
  - intros site records space w once twice. split.
    + destruct (remove_index_for_records_run site records space once)
        as (answers & w' & -> & _). done.
    + destruct (remove_index_for_records_redis site records space once) as [Hi2 Hh2].
      destruct (remove_index_for_records_redis site records space w) as [Hi1 Hh1].
      fold once in Hi1, Hh1, Hi2, Hh2. fold twice in Hi2, Hh2.
      apply redisearch_eq; [done|]. apply map_eq. intros key.
      rewrite Hh2, Hi1, Hh1.
      by destruct (removed_key site space (indexes (redis w)) records key).
Qed.

Example remove_index_for_records_missing_index_ex :
  remove_index_for_records site_docs [page "p1" "docs/intro"] (Some "docs")
                           (world_of empty_redis None)
  = (Returned tt,
     mkWorld ∅ empty_redis []
       [Redis (FtDeleteDocument "wiki|docs" "wiki|wiki_page_search_docdocs:p1")
              (Some (ResponseError "Unknown Index name"))]).
Proof. reflexivity. Qed.

(** ** Writing records *)

(** Text that holds no tag passes the stripping unchanged. *)
Lemma strip_html_tags_re_tagless (text : string) :
  no_tag text = true -> strip_html_tags_re text = text.
Proof.
  unfold strip_html_tags_re. induction text as [|a s IH]; [done|].
  cbn [no_tag strip_tags_from]. intros [Ha Hs]%andb_true_iff.
  destruct (Ascii.eqb a "<"); cbn [negb orb andb] in *.
  - apply negb_true_iff in Ha. rewrite Ha. by rewrite (IH Hs).
  - by rewrite (IH Hs).
Qed.

Lemma mapping_lookup_other (strip_html_tags : string -> string) (d : WikiPage)
      (f : string) :
  f <> "title" -> f <> "content" -> f <> "route" ->
  (list_to_map (mapping_of strip_html_tags d) : gmap string string) !! f = None.
Proof.
  intros H1 H2 H3. unfold mapping_of. cbn [list_to_map foldr uncurry].
  by rewrite !lookup_insert_ne, lookup_empty.
Qed.

(** A later write of a page's fields hides an earlier one entirely. *)
Lemma mapping_union_absorb (strip_html_tags : string -> string) (d d0 : WikiPage)
      (old : gmap string string) :
  list_to_map (mapping_of strip_html_tags d)
    ∪ (list_to_map (mapping_of strip_html_tags d0) ∪ old)
  = list_to_map (mapping_of strip_html_tags d) ∪ old.
Proof.
  apply map_eq. intros f.
  destruct (decide (f = "title")) as [->|H1];
    [by rewrite !(lookup_union_Some_l _ _ _ (title d))|].
  destruct (decide (f = "content")) as [->|H2];
    [by rewrite !(lookup_union_Some_l _ _ _ (strip_html_tags (content d)))|].
  destruct (decide (f = "route")) as [->|H3];
    [by rewrite !(lookup_union_Some_l _ _ _ (route d))|].
  by rewrite !lookup_union_r by (by apply mapping_lookup_other).
Qed.

Lemma record_key_inj (site : Site) (space : option string) (n1 n2 : string) :
  record_key site space n1 = record_key site space n2 -> n1 = n2.
Proof.
  unfold record_key, make_key. intros Heq.
  apply (inj (String.append (db_name site))) in Heq.
  apply (inj (String.append "|")) in Heq.
  apply (inj (String.append PREFIX)) in Heq.
  apply (inj (String.append (Py.format space))) in Heq.
  by apply (inj (String.append ":")) in Heq.
Qed.

Lemma last_written_Some (site : Site) (space : option string)
      (records : list WikiPage) (key : string) (d : WikiPage) :
  last_written site space records key = Some d ->
  In d records /\ key = record_key site space (name d).
Proof.
  induction records as [|d0 rest IH]; [done|]. cbn [last_written].
  destruct (last_written site space rest key) as [later|].
  - intros [= <-]. destruct (IH eq_refl) as [Hin Hkey]. split; [by right | done].
  - destruct (String.eqb_spec key (record_key site space (name d0))) as [Hk|_]; [|done].
    intros [= <-]. split; [by left | done].
Qed.

(** Where the page names differ, every page is the last written under its
    own key. *)
Lemma last_written_NoDup (site : Site) (space : option string)
      (records : list WikiPage) (d : WikiPage) :
  NoDup (map name records) -> In d records ->
  last_written site space records (record_key site space (name d)) = Some d.
Proof.
  induction records as [|d0 rest IH]; [done|]. cbn [map last_written].
  intros [Hfresh Hrest]%NoDup_cons [<-|Hin].
  - destruct (last_written site space rest (record_key site space (name d0)))
      as [later|] eqn:Hlater.
    + apply last_written_Some in Hlater as [Hin Hkey].
      apply record_key_inj in Hkey. exfalso. apply Hfresh.
      rewrite Hkey. apply list_elem_of_In, in_map, Hin.
    + by rewrite String.eqb_refl.
  - by rewrite (IH Hrest Hin).
Qed.

(** Against RediSearch the loop of an upsert always returns, keeps the
    indexes, and leaves at every key the fields of the record written last
    under it over what the hash held before. *)
Lemma index_from_hashes (site : Site) (strip_html_tags : string -> string)
      (total : nat) (space : option string) (i : nat) (records : list WikiPage)
      (w : World RediSearch) :
  exists w',
    index_from site strip_html_tags total space i records w = (Returned tt, w') /\
    indexes (redis w') = indexes (redis w) /\
    forall key,
      hashes (redis w') !! key
      = match last_written site space records key with
        | Some d =>
            Some (list_to_map (mapping_of strip_html_tags d)
                    ∪ default ∅ (hashes (redis w) !! key))
        | None => hashes (redis w) !! key
        end.
Proof.
  revert i w. induction records as [|d0 rest IH]; intros i w.
  - by exists w.
  - assert (exists w1,
               index_from site strip_html_tags total space i (d0 :: rest) w
               = index_from site strip_html_tags total space (S i) rest w1 /\
               indexes (redis w1) = indexes (redis w) /\
               hashes (redis w1)
               = <[record_key site space (name d0) :=
                     list_to_map (mapping_of strip_html_tags d0)
                       ∪ default ∅ (hashes (redis w) !! record_key site space (name d0))]>
                   (hashes (redis w))) as (w1 & Hstep & Hi1 & Hh1).
    { cbn [index_from]. unfold bind.
      destruct (negb (has_request site) && (10 <? total)).
      - unfold emit. rewrite send_hset_redis. eexists. split; [reflexivity|]. done.
      - unfold ret at 1. rewrite send_hset_redis. eexists. split; [reflexivity|]. done. }
    rewrite Hstep. clear Hstep.
    destruct (IH (S i) w1) as (w' & -> & Hi & Hh).
    exists w'. split; [done|]. split; [by rewrite Hi|].
    intros key. rewrite Hh, Hh1. cbn [last_written].
    destruct (last_written site space rest key) as [later|].
    + destruct (decide (key = record_key site space (name d0))) as [->|Hne].
      * rewrite lookup_insert_eq. cbn [default]. unfold id at 1.
        by rewrite mapping_union_absorb.
      * by rewrite lookup_insert_ne.
    + destruct (String.eqb_spec key (record_key site space (name d0))) as [->|Hne].
      * by rewrite lookup_insert_eq.
      * by rewrite lookup_insert_ne.
Qed.

(** C8: over any backend, an upsert that returns has sent one write per
    record in order and nothing else, and the backend is where these writes
    lead: the key is the site's key for the fixed prefix, the space, a colon
    and the page name, and the fields are the title, the content with its
    tags stripped and the route.  The stripped content holds no tag, and
    content without a tag is stored as it is.  Against RediSearch an
    upsert of any records returns and keeps the indexes; a key under which
    none of the records is written keeps its hash, and a key under which
    some are holds the title, the stripped content and the route of the
    last of them, and beside these only what the hash held before; where
    the page names differ, that is every page's own record. *)
Theorem create_index_for_records_writes :
  (forall (B : Type) (backend : Backend B) (site : Site) (records : list WikiPage)
          (space : option string) (w w' : World B),
      create_index_for_records site strip_html_tags_re records space w = (Returned tt, w') ->
      exists evs,
        extends w w' evs /\ forallb went_through evs = true /\
        commands_of evs
        = map (fun d => HSet (db_name site +:+ "|" +:+ "wiki_page_search_doc"
                                +:+ Py.format space +:+ ":" +:+ name d)
                             [("title", title d);
                              ("content", strip_html_tags_re (content d));
                              ("route", route d)])
              records /\
        plays (redis w) evs (redis w')) /\
  (forall text,
      no_tag (strip_html_tags_re text) = true /\
      (no_tag text = true -> strip_html_tags_re text = text)) /\
  (forall (site : Site) (records : list WikiPage) (space : option string)
          (w : World RediSearch),
      exists w',
        create_index_for_records site strip_html_tags_re records space w
        = (Returned tt, w') /\
        indexes (redis w') = indexes (redis w) /\
        (forall key,
            last_written site space records key = None ->
            hashes (redis w') !! key = hashes (redis w) !! key) /\
        (forall key d,
            last_written site space records key = Some d ->
            exists fields,
              hashes (redis w') !! key = Some fields /\
              fields !! "title" = Some (title d) /\
              fields !! "content" = Some (strip_html_tags_re (content d)) /\
              fields !! "route" = Some (route d) /\
              forall f, f <> "title" -> f <> "content" -> f <> "route" ->
                        fields !! f = default ∅ (hashes (redis w) !! key) !! f) /\
        (NoDup (map name records) ->
         forall d, In d records ->
                   last_written site space records (record_key site space (name d))
                   = Some d)).
Proof.
  split_and!.
  - intros B backend site records space w w' Hrun.
    destruct (tracks_index_from site strip_html_tags_re (length records) space 0 records w)
      as (evs' & Htrace & Hplays).
    unfold create_index_for_records in Hrun. rewrite Hrun in Htrace, Hplays.
    cbn [snd] in Htrace, Hplays.
    destruct (index_from_run site strip_html_tags_re (length records) space 0 records w)
      as (evs & w0 & Hext & Hthrough & [[Hret Hcmds] | (c & e & w'' & Hraise & _)]).
    + rewrite Hrun in Hret. injection Hret as <-.
      exists evs. split_and!; [done..| exact Hcmds |].
      destruct Hext as (_ & _ & Ht). rewrite Ht in Htrace.
      apply app_inv_head in Htrace. by rewrite Htrace.
    + rewrite Hrun in Hraise. discriminate.
  - intros text. split; [apply strip_html_tags_re_no_tag | apply strip_html_tags_re_tagless].
  - intros site records space w. unfold create_index_for_records.
    destruct (index_from_hashes site strip_html_tags_re (length records) space 0 records w)
      as (w' & Hrun & Hi & Hh).
    exists w'. split_and!; [done | done | | |].
    + intros key Hnone. by rewrite Hh, Hnone.
    + intros key d Hlast. eexists. rewrite Hh, Hlast. split; [reflexivity|].
      split_and!; try (apply lookup_union_Some_l; reflexivity).
      intros f H1 H2 H3. apply lookup_union_r. by apply mapping_lookup_other.
    + intros Hnames d Hin. by apply last_written_NoDup.
Qed.

Lemma create_index_for_records_writes_witness :
  commands_of
    (trace (snd (create_index_for_records site_docs strip_html_tags_re
                   [page "p1" "docs/intro"; page "p2" "docs/more"] (Some "docs")
                   (world_of empty_redis None))))
  = [HSet "wiki|wiki_page_search_docdocs:p1"
          [("title", "Intro"); ("content", "Hello World"); ("route", "docs/intro")];
     HSet "wiki|wiki_page_search_docdocs:p2"
          [("title", "Intro"); ("content", "Hello World"); ("route", "docs/more")]].
Proof.
  destruct create_index_for_records_writes as [Hany _].
  destruct (Hany RediSearch redisearch_backend site_docs
                 [page "p1" "docs/intro"; page "p2" "docs/more"] (Some "docs")
                 (world_of empty_redis None)
                 (snd (create_index_for_records site_docs strip_html_tags_re
                         [page "p1" "docs/intro"; page "p2" "docs/more"] (Some "docs")
                         (world_of empty_redis None))))
    as (evs & (_ & _ & Htrace) & _ & Hcmds & _); [reflexivity|].
  rewrite Htrace. exact Hcmds.
Defined.

(** Two pages written to an empty Redis are both there afterwards, each
    with its own fields. *)
Example create_index_for_records_two_ex :
  hashes (redis (snd (create_index_for_records site_docs strip_html_tags_re
                        [page "p1" "docs/intro"; page "p2" "docs/more"] (Some "docs")
                        (world_of empty_redis None))))
  = {[ "wiki|wiki_page_search_docdocs:p1" :=
         list_to_map [("title", "Intro"); ("content", "Hello World");
                      ("route", "docs/intro")];
       "wiki|wiki_page_search_docdocs:p2" :=
         list_to_map [("title", "Intro"); ("content", "Hello World");
                      ("route", "docs/more")] ]}.
Proof. vm_compute. reflexivity. Qed.

(** ** Entry points and a path without a space *)

(** C9, as stated, fails: no space of the site occurs in [blog/post], and
    [update_index] writes the page all the same, under a key with the text
    [None] where the space belongs; [remove_index] asks the index named for
    [None] to delete that key. *)
Lemma update_index_without_space :
  get_space_route site_docs "blog/post" = None /\
  update_index site_docs strip_html_tags_re (page "p1" "blog/post")
               (world_of empty_redis None)
  = (Returned tt,
     mkWorld ∅
       {| indexes := ∅;
          hashes := {[ "wiki|wiki_page_search_docNone:p1" :=
                         list_to_map [("title", "Intro"); ("content", "Hello World");
                                      ("route", "blog/post")] ]} |}
       []
       [Redis (HSet "wiki|wiki_page_search_docNone:p1"
                    [("title", "Intro"); ("content", "Hello World");
                     ("route", "blog/post")]) None]) /\
  remove_index site_docs (page "p1" "blog/post") (world_of empty_redis None)
  = (Returned tt,
     mkWorld ∅ empty_redis []
       [Redis (FtDeleteDocument "wiki|None" "wiki|wiki_page_search_docNone:p1")
              (Some (ResponseError "Unknown Index name"))]).
Proof. split_and!; reflexivity. Qed.

(** C9, amended: when no known route occurs in the path, [get_space_route]
    gives [None] and the entry points pass it on unchecked.  [update_index]
    sends the write of the page under the key built with the text [None];
    [remove_index] sends the deletion of that key to the index named for
    [None] and returns normally whatever the answer. *)
Theorem entry_points_pass_None_on
        {B : Type} `{Backend B} (site : Site) (strip_html_tags : string -> string)
        (doc : WikiPage) (w : World B) :
  get_space_route site (route doc) = None ->
  (exists answer w',
      update_index site strip_html_tags doc w
      = (match answer with Some e => Raised e | None => Returned tt end, w') /\
      extends w w'
        [Redis (HSet (make_key site ("wiki_page_search_docNone:" +:+ name doc))
                     [("title", title doc);
                      ("content", strip_html_tags (content doc));
                      ("route", route doc)]) answer]) /\
  (exists answer w',
      remove_index site doc w = (Returned tt, w') /\
      extends w w'
        [Redis (FtDeleteDocument
                  (make_key site "None")
                  (make_key site ("wiki_page_search_docNone:" +:+ name doc))) answer]).
Proof.
  intros Hnone. split.
  - unfold update_index. rewrite Hnone.
    unfold create_index_for_records, index_from, bind.
    change (Nat.ltb 10 (length [_])) with false. rewrite andb_false_r.
    unfold ret at 1. cbn [name title content route mapping_of].
    match goal with
    | |- context [send ?c w] =>
        destruct (send_run c w) as [(b' & _ & ->) | (e & _ & ->)]
    end.
    + exists None. eexists. split; [reflexivity|]. by unfold extends.
    + exists (Some e). eexists. split; [reflexivity|]. by unfold extends.
  - unfold remove_index. rewrite Hnone.
    destruct (remove_index_for_records_run
                site [{| name := name doc; title := ""; content := ""; route := route doc |}]
                None w) as (answers & w' & Hrun & Hext & Hlen).
    destruct answers as [|answer [|??]]; try discriminate.
    exists answer, w'. split; [exact Hrun|]. exact Hext.
Qed.

Lemma entry_points_pass_None_on_witness :
  exists answer w',
    remove_index site_docs (page "p1" "blog/post") (world_of empty_redis None)
    = (Returned tt, w') /\
    extends (world_of empty_redis None) w'
      [Redis (FtDeleteDocument "wiki|None" "wiki|wiki_page_search_docNone:p1") answer].
Proof.
  apply (entry_points_pass_None_on site_docs strip_html_tags_re
           (page "p1" "blog/post") (world_of empty_redis None)).
  reflexivity.
Defined.

(** * Further properties of the module *)

(** ** Resolution of a space, exactly *)

(** X1: [get_space_route] gives the first route, in the order the routes
    are fetched, that occurs anywhere in the path, and [None] exactly when
    none occurs; a space with an empty route therefore catches every path
    that no earlier space catches. *)
Theorem get_space_route_first_occurrence (site : Site) (path : string) :
  (forall r,
      get_space_route site path = Some r <->
      exists before after,
        wiki_spaces site = before ++ r :: after /\ occurs_in r path /\
        Forall (fun x => ~ occurs_in x path) before) /\
  (get_space_route site path = None <->
   Forall (fun x => ~ occurs_in x path) (wiki_spaces site)) /\
  (In EmptyString (wiki_spaces site) -> get_space_route site path <> None).
Proof.
  split_and!.
  - intros r. apply first_space_in_Some.
  - apply first_space_in_None.
  - intros Hin Hnone. apply first_space_in_None in Hnone.
    rewrite Forall_forall in Hnone. apply (Hnone EmptyString).
    + by apply list_elem_of_In.
    + by exists EmptyString, path.
Qed.

Lemma get_space_route_first_occurrence_witness :
  get_space_route
    {| db_name := "wiki"; site_name := "wiki.example"; has_request := false;
       wiki_spaces := ["docs"; ""]; wiki_pages := [] |} "blog/post" <> None.
Proof.
  apply get_space_route_first_occurrence. simpl. tauto.
Defined.

(** ** The search query, further *)

Lemma has_char_app (c : ascii) (a b : string) :
  has_char c (a +:+ b) = has_char c a || has_char c b.
Proof.
  induction a as [|x a IH]; [done|]. cbn [String.append has_char].
  by rewrite IH, orb_assoc.
Qed.

Lemma endswith_char_app (q : string) (c : ascii) :
  Py.endswith_char (q +:+ String c EmptyString) c = true.
Proof.
  induction q as [|a q IH].
  - cbn. apply Ascii.eqb_refl.
  - cbn [String.append]. destruct q as [|b q]; [cbn; apply Ascii.eqb_refl|].
    exact IH.
Qed.

(** X3: a cleaned query without a space, the empty one included, comes out
    without a space and ending with [*], and normalising it again changes
    nothing. *)
Theorem search_query_single (q : string) :
  has_char " " q = false ->
  Py.endswith_char (search_query q) "*" = true /\
  has_char " " (search_query q) = false /\
  search_query (search_query q) = search_query q.
Proof.
  intros Hq.
  assert (forall t, has_char " " t = false -> Py.endswith_char t "*" = true ->
                    search_query t = t) as Hfix.
  { intros t Ht Hstar. unfold search_query.
    rewrite (split_char_no_sep _ _ Ht). cbn. by rewrite Hstar. }
  destruct (Py.endswith_char q "*") eqn:Hstar.
  - rewrite (Hfix q Hq Hstar). split_and!; [done | done | by apply Hfix].
  - assert (search_query q = q +:+ "*") as ->.
    { unfold search_query. rewrite (split_char_no_sep _ _ Hq). cbn. by rewrite Hstar. }
    assert (has_char " " (q +:+ "*") = false) as Hq'.
    { rewrite has_char_app, Hq. reflexivity. }
    split_and!; [apply endswith_char_app | done |].
    apply Hfix; [done | apply endswith_char_app].
Qed.

Lemma search_query_single_witness :
  Py.endswith_char (search_query "") "*" = true /\
  has_char " " (search_query "") = false /\
  search_query (search_query "") = search_query "".
Proof. apply (search_query_single ""). reflexivity. Defined.

Lemma split_char_nonempty (sep : ascii) (s : string) : Py.split_char sep s <> [].
Proof.
  induction s as [|a s IH]; [done|]. cbn [Py.split_char].
  destruct (Ascii.eqb a sep); [done|]. by destruct (Py.split_char sep s).
Qed.

Lemma split_char_length (sep : ascii) (s : string) :
  has_char sep s = true -> 1 < length (Py.split_char sep s).
Proof.
  induction s as [|a s IH]; [done|]. cbn [Py.split_char has_char].
  destruct (Ascii.eqb a sep); cbn [orb].
  - intros _. pose proof (split_char_nonempty sep s).
    destruct (Py.split_char sep s); [done | simpl; lia].
  - intros Hs. specialize (IH Hs).
    destruct (Py.split_char sep s); simpl in *; lia.
Qed.

Lemma split_char_pieces (sep : ascii) (s : string) :
  Forall (fun p => has_char sep p = false) (Py.split_char sep s).
Proof.
  induction s as [|a s IH]; [by repeat constructor|]. cbn [Py.split_char].
  destruct (Ascii.eqb a sep) eqn:Ha; [by constructor|].
  destruct (Py.split_char sep s) as [|w ws]; [by repeat constructor; cbn; rewrite Ha|].
  apply Forall_cons in IH as [Hw Hws]. constructor; [|done].
  cbn [has_char]. by rewrite Ha, Hw.
Qed.

(** X4: a cleaned query with a space comes out with as many pieces
    between single spaces as went in, each piece in the fuzzy marker, the
    empty ones too: no term is lost, merged or left bare. *)
Theorem search_query_pieces (q : string) :
  has_char " " q = true ->
  Py.split_char " " (search_query q) = map fuzzy (Py.split_char " " q).
Proof.
  intros Hq. pose proof (split_char_length _ _ Hq) as Hlen.
  unfold search_query. apply Nat.ltb_lt in Hlen as Hlt. rewrite Hlt.
  apply split_char_join.
  - destruct (Py.split_char " " q); [simpl in Hlen; lia | done].
  - apply Forall_map. eapply Forall_impl; [apply split_char_pieces|].
    intros p Hp. cbn beta. unfold fuzzy.
    rewrite !has_char_app, Hp. reflexivity.
Qed.

Lemma search_query_pieces_witness :
  Py.split_char " " (search_query " cat  dog") = ["%%%%"; "%%cat%%"; "%%%%"; "%%dog%%"].
Proof. apply (search_query_pieces " cat  dog"). reflexivity. Defined.

(** ** From a record's key back to the page name *)

Lemma split_once_cut (sep : ascii) (p rest : string) :
  has_char sep p = false ->
  split_once sep (p +:+ String sep rest) = [p; rest].
Proof.
  induction p as [|a p IH]; cbn [String.append split_once has_char].
  - intros _. by rewrite Ascii.eqb_refl.
  - intros [Ha Hp]%orb_false_iff. by rewrite Ha, (IH Hp).
Qed.

Lemma split_once_whole (sep : ascii) (s : string) :
  has_char sep s = false -> split_once sep s = [s].
Proof.
  induction s as [|a s IH]; [done|]. cbn [split_once has_char].
  intros [Ha Hs]%orb_false_iff. by rewrite Ha, (IH Hs).
Qed.

Lemma split_once_second (sep : ascii) (s : string) :
  has_char sep s = true -> exists p rest, split_once sep s = [p; rest].
Proof.
  induction s as [|a s IH]; [done|]. cbn [split_once has_char].
  destruct (Ascii.eqb a sep); cbn [orb]; [eauto|].
  intros Hs. destruct (IH Hs) as (p & rest & ->). eauto.
Qed.

Lemma name_of_id_None (id : string) :
  name_of_id id = None <-> has_char ":" id = false.
Proof.
  unfold name_of_id. destruct (has_char ":" id) eqn:Hc.
  - destruct (split_once_second _ _ Hc) as (p & rest & ->). done.
  - by rewrite (split_once_whole _ _ Hc).
Qed.

Lemma name_of_id_record_key (site : Site) (space page_name : string) :
  has_char ":" (db_name site) = false ->
  has_char ":" space = false ->
  name_of_id (record_key site (Some space) page_name) = Some page_name.
Proof.
  intros Hdb Hspace. unfold name_of_id, record_key, make_key. cbn [Py.format].
  replace (db_name site +:+ "|" +:+ PREFIX +:+ space +:+ ":" +:+ page_name)
    with ((db_name site +:+ "|" +:+ PREFIX +:+ space) +:+ String ":" page_name)
    by (by rewrite !app_assoc_str).
  rewrite split_once_cut; [done|].
  rewrite !has_char_app, Hdb, Hspace. reflexivity.
Qed.

(** X2: when neither the database name nor the route of the space holds a
    colon, [search] recovers from the keys written for the pages of the
    space exactly the page names, in order, colons inside a name included;
    and the loop fails with the [IndexError] exactly when some id in the
    answer holds no colon. *)
Theorem result_docs_names (site : Site) (space : string)
        (hits : list Hit) (pages : list WikiPage) :
  (has_char ":" (db_name site) = false ->
   has_char ":" space = false ->
   map hit_id hits = map (fun d => record_key site (Some space) (name d)) pages ->
   exists docs,
     result_docs hits = Some docs /\
     map doc_name docs = map name pages /\
     map doc_route docs = map hit_route hits /\
     map doc_title docs = map hit_title hits /\
     map doc_content docs = map hit_content hits) /\
  (result_docs hits = None <->
   Exists (fun h => has_char ":" (hit_id h) = false) hits).
Proof.
  split.
  - intros Hdb Hspace. revert pages.
    induction hits as [|h hits IH]; intros [|d pages] Hids; try discriminate.
    + by exists [].
    + injection Hids as Hid Hids. destruct (IH pages Hids) as (docs & Hdocs & Hn & Hr & Ht & Hc).
      cbn [result_docs]. rewrite Hid, (name_of_id_record_key _ _ _ Hdb Hspace), Hdocs.
      eexists. split; [reflexivity|]. cbn [map doc_name doc_route doc_title doc_content].
      by rewrite Hn, Hr, Ht, Hc.
  - induction hits as [|h hits IH].
    + cbn. split; [done | by intros ?%Exists_nil].
    + cbn [result_docs]. rewrite Exists_cons, <- IH, <- name_of_id_None.
      destruct (name_of_id (hit_id h)); [|by split; [left|]].
      destruct (result_docs hits); split; try done.
      * intros [?|?]; done.
      * by right.
Qed.

Lemma result_docs_names_witness :
  exists docs,
    result_docs [ {| hit_id := "wiki|wiki_page_search_docdocs:a:b"; hit_title := "T";
                     hit_content := "C"; hit_route := "docs/a" |} ] = Some docs /\
    map doc_name docs = ["a:b"].
Proof.
  destruct (result_docs_names site_docs "docs"
              [ {| hit_id := "wiki|wiki_page_search_docdocs:a:b"; hit_title := "T";
                   hit_content := "C"; hit_route := "docs/a" |} ]
              [page "a:b" "docs/a"]) as [Hnames _].
  destruct Hnames as (docs & Hdocs & Hn & _); [reflexivity..|].
  exists docs. split; [exact Hdocs | exact Hn].
Defined.

(** ** What a rebuild selects, further *)

(** X13: whatever a rebuild selects for a space is one of the pages and has
    a route that starts with the space and a slash; the page whose route is
    the space itself, without the slash, is never selected. *)
Theorem records_to_index_below_space
        (pages : list WikiPage) (space : string) (d : WikiPage) :
  In d (records_to_index pages space) ->
  In d pages /\ prefix_of_str (space +:+ "/") (route d) /\ route d <> space.
Proof.
  intros [Hin Hu]%filter_In. split; [done|].
  pose proof (under_space_prefix _ _ Hu) as Hpre. split; [done|].
  destruct Hpre as [rest Hrest]. intros Heq. rewrite Heq in Hrest.
  apply (f_equal String.length) in Hrest.
  rewrite !app_length_str in Hrest. simpl in Hrest. lia.
Qed.

Lemma records_to_index_below_space_witness :
  prefix_of_str ("docs" +:+ "/") (route (page "p1" "docs/intro")).
Proof.
  apply (records_to_index_below_space
           [page "p0" "docs"; page "p1" "docs/intro"] "docs" (page "p1" "docs/intro")).
  simpl. tauto.
Defined.

(** X14: a page below a space nested in another space is selected for
    both spaces, provided neither prefix recurs in what follows it and
    neither remainder begins with [v]. *)
Theorem nested_spaces_both_select
        (pages : list WikiPage) (outer t rest : string) (d : WikiPage) :
  let inner := outer +:+ "/" +:+ t in
  route d = (inner +:+ "/") +:+ rest ->
  ~ occurs_in (outer +:+ "/") (t +:+ "/" +:+ rest) ->
  ~ occurs_in (inner +:+ "/") rest ->
  Py.startswith (t +:+ "/" +:+ rest) "v" = false ->
  Py.startswith rest "v" = false ->
  In d pages ->
  In d (records_to_index pages outer) /\ In d (records_to_index pages inner).
Proof.
  intros inner Hroute Hout Hinn Hvt Hvr Hin.
  assert (forall space rem,
             route d = (space +:+ "/") +:+ rem ->
             ~ occurs_in (space +:+ "/") rem ->
             Py.startswith rem "v" = false ->
             under_space space d = true) as Hsel.
  { intros space rem Hr Hno Hv. rewrite (under_space_below _ _ _ Hr).
    apply contains_false in Hno.
    destruct (slash_nonempty space) as (c & o & Hold). rewrite Hold in Hno |- *.
    unfold Py.replace. rewrite (replace_absent _ _ _ Hno), Hv. apply orb_true_r. }
  split; apply filter_In; (split; [done|]).
  - apply (Hsel outer (t +:+ "/" +:+ rest)); [|done..].
    rewrite Hroute. subst inner. by rewrite !app_assoc_str.
  - by apply (Hsel inner rest).
Qed.

Lemma nested_spaces_both_select_witness :
  In (page "p1" "docs/api/x") (records_to_index [page "p1" "docs/api/x"] "docs") /\
  In (page "p1" "docs/api/x") (records_to_index [page "p1" "docs/api/x"] "docs/api").
Proof.
  apply (nested_spaces_both_select _ "docs" "api" "x").
  - reflexivity.
  - intros Hocc. apply contains_spec in Hocc. discriminate.
  - intros Hocc. apply contains_spec in Hocc. discriminate.
  - reflexivity.
  - reflexivity.
  - simpl. tauto.
Defined.

(** X18: a page that a rebuild selects for a known space never resolves
    to [None]: [get_space_route] finds for its route a known space that
    occurs in it. *)
Theorem selected_page_resolves (site : Site) (space : string) (d : WikiPage) :
  In space (wiki_spaces site) ->
  In d (records_to_index (wiki_pages site) space) ->
  exists found,
    get_space_route site (route d) = Some found /\
    In found (wiki_spaces site) /\ occurs_in found (route d).
Proof.
  intros Hspace [_ Hu]%filter_In.
  destruct (under_space_prefix _ _ Hu) as [rest Hrest].
  destruct (get_space_route site (route d)) as [found|] eqn:Hget.
  - exists found. split; [done|].
    apply first_space_in_Some in Hget as (before & after & Hsplit & Hocc & _).
    split; [|done]. rewrite Hsplit. apply in_or_app. right. by left.
  - apply first_space_in_None in Hget. rewrite Forall_forall in Hget.
    exfalso. apply (Hget space); [by apply list_elem_of_In|].
    exists EmptyString, ("/" +:+ rest). rewrite Hrest. by rewrite app_assoc_str.
Qed.

Lemma selected_page_resolves_witness :
  exists found,
    get_space_route
      {| db_name := "wiki"; site_name := "wiki.example"; has_request := false;
         wiki_spaces := ["api"; "docs"]; wiki_pages := [page "p1" "docs/api/x"] |}
      "docs/api/x" = Some found.
Proof.
  destruct (selected_page_resolves
              {| db_name := "wiki"; site_name := "wiki.example"; has_request := false;
                 wiki_spaces := ["api"; "docs"]; wiki_pages := [page "p1" "docs/api/x"] |}
              "docs" (page "p1" "docs/api/x")) as (found & Hfound & _).
  - simpl. tauto.
  - simpl. tauto.
  - exists found. exact Hfound.
Defined.

(** ** Rebuild and admission, further *)

Lemma rebuild_index_run
      {B : Type} `{Backend B} (site : Site) (strip_html_tags : string -> string)
      (w : World B) :
  exists segs w',
    rebuild_index site strip_html_tags w = (Returned tt, w') /\
    cache w' = <[IN_PROGRESS := false]> (cache w) /\
    jobs w' = jobs w /\
    trace w' = trace w ++ [SetValue IN_PROGRESS true] ++ concat segs
                       ++ [SetValue IN_PROGRESS false] /\
    Forall2 (space_segment site strip_html_tags) (wiki_spaces site) segs.
Proof.
  unfold rebuild_index, bind, set_value.
  set (w1 := mkWorld (<[IN_PROGRESS:=true]> (cache w)) (redis w) (jobs w)
                     (trace w ++ [SetValue IN_PROGRESS true])).
  destruct (rebuild_loop_run site strip_html_tags (wiki_spaces site) w1)
    as (segs & w2 & -> & (Hc & Hj & Ht) & Hsegs).
  exists segs. eexists. split; [reflexivity|]. simpl. split_and!.
  - rewrite Hc. simpl. apply insert_insert_eq.
  - by rewrite Hj.
  - rewrite Ht. simpl. by rewrite <- !app_assoc.
  - done.
Qed.

(** X6: over any backend a rebuild leaves the job queue as it was and
    changes no cache entry but the flag. *)
Theorem rebuild_index_keeps_rest
        {B : Type} `{Backend B} (site : Site) (strip_html_tags : string -> string)
        (w : World B) :
  jobs (snd (rebuild_index site strip_html_tags w)) = jobs w /\
  forall key,
    key <> IN_PROGRESS ->
    cache (snd (rebuild_index site strip_html_tags w)) !! key = cache w !! key.
Proof.
  destruct (rebuild_index_run site strip_html_tags w)
    as (segs & w' & -> & Hc & Hj & _). cbn [snd]. split; [done|].
  intros key Hkey. rewrite Hc. by apply lookup_insert_ne.
Qed.

Lemma rebuild_index_keeps_rest_witness :
  cache (snd (rebuild_index site_abc strip_html_tags_re
                (mkWorld {[ "other" := true ]} empty_redis [] []))) !! "other"
  = Some true.
Proof.
  destruct (rebuild_index_keeps_rest site_abc strip_html_tags_re
              (mkWorld {[ "other" := true ]} empty_redis [] [])) as [_ Hcache].
  rewrite (Hcache "other"); [reflexivity | discriminate].
Defined.

(** X11: queueing does not set the flag: two calls of the background entry
    point in a row, with the flag clear or absent, queue two rebuilds. *)
Theorem rebuild_index_in_background_twice
        {B : Type} (site : Site) (w : World B) :
  cache w !! IN_PROGRESS <> Some true ->
  exists w',
    bind (rebuild_index_in_background site)
         (fun _ => rebuild_index_in_background site) w = (Returned tt, w') /\
    jobs w' = jobs w ++ [long_rebuild; long_rebuild] /\
    cache w' = cache w.
Proof.
  intros Hflag. unfold rebuild_index_in_background, bind, get_value.
  destruct (cache w !! IN_PROGRESS) as [[|]|] eqn:Hc; [done|..]; cbn;
    rewrite Hc; cbn; eexists; (split; [reflexivity|]); cbn;
    by rewrite <- app_assoc.
Qed.

Lemma rebuild_index_in_background_twice_witness :
  exists w',
    bind (rebuild_index_in_background site_docs)
         (fun _ => rebuild_index_in_background site_docs)
         (world_of empty_redis None) = (Returned tt, w') /\
    jobs w' = [long_rebuild; long_rebuild].
Proof.
  destruct (rebuild_index_in_background_twice site_docs (world_of empty_redis None))
    as (w' & Hrun & Hjobs & _); [discriminate|].
  exists w'. split; [exact Hrun | exact Hjobs].
Defined.

(** X12: over any backend and from any state of the flag, once a rebuild
    has run the background entry point queues a rebuild again. *)
Theorem rebuild_then_background
        {B : Type} `{Backend B} (site : Site) (strip_html_tags : string -> string)
        (w : World B) :
  exists w',
    bind (rebuild_index site strip_html_tags)
         (fun _ => rebuild_index_in_background site) w = (Returned tt, w') /\
    jobs w' = jobs w ++ [long_rebuild] /\
    cache w' !! IN_PROGRESS = Some false.
Proof.
  unfold bind at 1.
  destruct (rebuild_index_run site strip_html_tags w)
    as (segs & w1 & -> & Hc & Hj & _).
  unfold rebuild_index_in_background, bind, get_value.
  rewrite Hc, lookup_insert_eq. cbn.
  eexists. split; [reflexivity|]. cbn. rewrite Hj, Hc.
  split; [done | apply lookup_insert_eq].
Qed.

(** ** Upserts, further *)

Section Upserts.

Context {B : Type} `{Backend B}.
Variable site : Site.
Variable strip_html_tags : string -> string.

Lemma index_from_progress (total : nat) (space : option string) (i : nat)
      (records : list WikiPage) (w w' : World B) :
  index_from site strip_html_tags total space i records w = (Returned tt, w') ->
  exists evs,
    trace w' = trace w ++ evs /\
    progress_of evs
    = if negb (has_request site) && (10 <? total)
      then progress_lines space total i (length records) else [].
Proof.
  revert i w. induction records as [|d rest IH]; intros i w Hrun.
  - injection Hrun as <-. exists []. rewrite app_nil_r. split; [done|].
    by destruct (negb (has_request site) && (10 <? total)).
  - cbn [index_from] in Hrun. unfold bind in Hrun.
    destruct (negb (has_request site) && (10 <? total)) eqn:Hcond.
    + unfold emit in Hrun.
      match type of Hrun with
      | context [send ?c ?w1] =>
          destruct (send_run c w1) as [(b' & _ & Hs) | (e & _ & Hs)];
            rewrite Hs in Hrun; [|discriminate]
      end.
      apply IH in Hrun as (evs & Ht & Hp). cbn [trace] in Ht.
      eexists. split; [rewrite Ht, <- !app_assoc; reflexivity|].
      unfold progress_of in *. rewrite !omap_app, Hp. reflexivity.
    + unfold ret at 1 in Hrun.
      match type of Hrun with
      | context [send ?c ?w1] =>
          destruct (send_run c w1) as [(b' & _ & Hs) | (e & _ & Hs)];
            rewrite Hs in Hrun; [|discriminate]
      end.
      apply IH in Hrun as (evs & Ht & Hp). cbn [trace] in Ht.
      eexists. split; [rewrite Ht, <- !app_assoc; reflexivity|].
      unfold progress_of in *. rewrite !omap_app, Hp. reflexivity.
Qed.

(** The entry point [update_index] sends the one write of the page under
    whatever [get_space_route] gives for its route. *)
Lemma update_index_run (doc : WikiPage) (w : World B) :
  exists answer w',
    update_index site strip_html_tags doc w
    = (match answer with Some e => Raised e | None => Returned tt end, w') /\
    extends w w'
      [Redis (hset_of site strip_html_tags (get_space_route site (route doc)) doc)
             answer] /\
    redis w' = match exec (hset_of site strip_html_tags
                                   (get_space_route site (route doc)) doc) (redis w) with
               | inr b' => b'
               | inl _ => redis w
               end.
Proof.
  unfold update_index, create_index_for_records, index_from, bind.
  change (Nat.ltb 10 (length [_])) with false. rewrite andb_false_r.
  unfold ret at 1. unfold hset_of. cbn [name title content route mapping_of].
  unfold send. destruct (exec _ (redis w)) as [e|b'].
  - exists (Some e). eexists. split; [reflexivity|]. by unfold extends.
  - exists None. eexists. split; [reflexivity|]. by unfold extends.
Qed.

End Upserts.

(** X10: an upsert that returns has printed progress lines only outside a
    web request and for more than ten records, and then one line per
    record, numbered from 0, each with the number of records. *)
Theorem create_index_for_records_progress
        {B : Type} `{Backend B} (site : Site) (strip_html_tags : string -> string)
        (records : list WikiPage) (space : option string) (w w' : World B) :
  create_index_for_records site strip_html_tags records space w = (Returned tt, w') ->
  exists evs,
    trace w' = trace w ++ evs /\
    progress_of evs
    = if negb (has_request site) && (10 <? length records)
      then progress_lines space (length records) 0 (length records) else [].
Proof. apply index_from_progress. Qed.

Lemma create_index_for_records_progress_witness :
  let ten := map (fun n => page n "docs/x")
                 ["1"; "2"; "3"; "4"; "5"; "6"; "7"; "8"; "9"; "10"] in
  let eleven := page "0" "docs/x" :: ten in
  let run records :=
    @create_index_for_records unit (fun _ _ => inr tt)
      site_docs strip_html_tags_re records (Some "docs") (world_of tt None) in
  progress_of (trace (snd (run ten))) = [] /\
  length (progress_of (trace (snd (run eleven)))) = 11.
Proof.
  intros ten eleven run. split.
  - assert (run ten = (Returned tt, snd (run ten))) as Hrun by (vm_compute; reflexivity).
    destruct (create_index_for_records_progress _ _ _ _ _ _ Hrun) as (evs & Ht & Hp).
    rewrite Ht. exact Hp.
  - assert (run eleven = (Returned tt, snd (run eleven))) as Hrun
      by (vm_compute; reflexivity).
    destruct (create_index_for_records_progress _ _ _ _ _ _ Hrun) as (evs & Ht & Hp).
    rewrite Ht. cbn [world_of trace app]. rewrite Hp. reflexivity.
Defined.

(** X19: over any backend an upsert that raises has stopped at the refused
    write: the writes sent are those of the first records, in order, the
    refused one is the last event, and no later record is written. *)
Theorem create_index_for_records_stops
        {B : Type} `{Backend B} (site : Site) (strip_html_tags : string -> string)
        (records : list WikiPage) (space : option string) (w w' : World B) (e : exn) :
  create_index_for_records site strip_html_tags records space w = (Raised e, w') ->
  exists evs c,
    trace w' = trace w ++ evs ++ [Redis c (Some e)] /\
    forallb went_through evs = true /\
    (commands_of evs ++ [c]) `prefix_of` map (hset_of site strip_html_tags space) records /\
    redis w' = redis (snd (create_index_for_records site strip_html_tags records space w)).
Proof.
  intros Hrun. unfold create_index_for_records in *.
  destruct (index_from_run site strip_html_tags (length records) space 0 records w)
    as (evs & w0 & (_ & _ & Ht0) & Hthrough & [[Hret _] | (c & e' & w'' & Hraise & (_ & _ & Ht) & Hpre)]).
  - rewrite Hrun in Hret. discriminate.
  - rewrite Hrun in Hraise. injection Hraise as -> ->.
    exists evs, c. split_and!; [|done..| by rewrite Hrun].
    by rewrite Ht, Ht0, <- app_assoc.
Qed.

Lemma create_index_for_records_stops_witness :
  let run :=
    @create_index_for_records unit (fun _ _ => inl (ResponseError "WRONGTYPE"))
      site_docs strip_html_tags_re
      [page "p1" "docs/a"; page "p2" "docs/b"] (Some "docs") (world_of tt None) in
  exists evs c,
    trace (snd run) = [] ++ evs ++ [Redis c (Some (ResponseError "WRONGTYPE"))] /\
    forallb went_through evs = true.
Proof.
  intros run.
  assert (run = (Raised (ResponseError "WRONGTYPE"), snd run)) as Hrun
    by (vm_compute; reflexivity).
  destruct (create_index_for_records_stops _ _ _ _ _ _ _ Hrun)
    as (evs & c & Ht & Hthrough & _).
  exists evs, c. split; [exact Ht | exact Hthrough].
Defined.

(** X16: [update_index] applies no version exclusion: whenever a known
    route occurs in the page's route it sends the write of the page under
    the space found, also for a page that a rebuild leaves out. *)
Theorem update_index_writes_resolved
        {B : Type} `{Backend B} (site : Site) (strip_html_tags : string -> string)
        (doc : WikiPage) (space : string) (w : World B) :
  get_space_route site (route doc) = Some space ->
  exists answer w',
    update_index site strip_html_tags doc w
    = (match answer with Some e => Raised e | None => Returned tt end, w') /\
    extends w w'
      [Redis (HSet (record_key site (Some space) (name doc))
                   [("title", title doc);
                    ("content", strip_html_tags (content doc));
                    ("route", route doc)]) answer].
Proof.
  intros Hspace.
  destruct (update_index_run site strip_html_tags doc w) as (answer & w' & Hrun & Hext & _).
  rewrite Hspace in Hext. by exists answer, w'.
Qed.

Lemma update_index_writes_resolved_witness :
  records_to_index [page "p2" "docs/v2/intro"] "docs" = [] /\
  exists answer w',
    update_index site_docs strip_html_tags_re (page "p2" "docs/v2/intro")
                 (world_of empty_redis None)
    = (match answer with Some e => Raised e | None => Returned tt end, w') /\
    extends (world_of empty_redis None) w'
      [Redis (HSet "wiki|wiki_page_search_docdocs:p2"
                   [("title", "Intro"); ("content", "Hello World");
                    ("route", "docs/v2/intro")]) answer].
Proof.
  split; [reflexivity|].
  apply (update_index_writes_resolved site_docs strip_html_tags_re
           (page "p2" "docs/v2/intro") "docs").
  reflexivity.
Defined.

(** ** Against RediSearch: entry points *)

Lemma hset_twice (key : string) (mapping : list (string * string)) (r : RediSearch) :
  redisearch_exec (HSet key mapping) r
  = inr {| indexes := indexes r;
           hashes := <[key := list_to_map mapping ∪ default ∅ (hashes r !! key)]>
                       (hashes r) |}.
Proof. reflexivity. Qed.

(** X7: against RediSearch saving a page twice leaves Redis as saving it
    once: the write replaces the three fields and adds nothing. *)
Theorem update_index_idempotent
        (site : Site) (strip_html_tags : string -> string) (doc : WikiPage)
        (w : World RediSearch) :
  let once := snd (update_index site strip_html_tags doc w) in
  let twice := snd (update_index site strip_html_tags doc once) in
  fst (update_index site strip_html_tags doc once) = Returned tt /\
  redis twice = redis once.
Proof.
  intros once twice.
  destruct (update_index_run site strip_html_tags doc w) as (a1 & w1 & Hrun1 & _ & Hr1).
  destruct (update_index_run site strip_html_tags doc once) as (a2 & w2 & Hrun2 & Hext2 & Hr2).
  subst twice. rewrite Hrun2. cbn [fst snd].
  assert (once = w1) as Honce by (subst once; by rewrite Hrun1).
  rewrite Honce in *. clear Hrun1 Honce once.
  unfold exec, redisearch_backend, hset_of in Hr1, Hr2.
  rewrite hset_twice in Hr1, Hr2.
  split.
  - destruct a2 as [e|]; [|done]. exfalso.
    revert Hrun2. unfold update_index, create_index_for_records, index_from, bind.
    change (Nat.ltb 10 (length [_])) with false. rewrite andb_false_r.
    unfold ret at 1, send, exec, redisearch_backend. cbn [redisearch_exec]. discriminate.
  - rewrite Hr2, Hr1. cbn [indexes hashes]. apply redisearch_eq; cbn [indexes hashes]; [done|].
    rewrite lookup_insert_eq, insert_insert_eq. cbn [default]. f_equal.
    unfold id at 1. by rewrite (assoc_L (∪)), (idemp_L (∪)).
Qed.

(** X17: against RediSearch a removal keeps every index, and keeps every
    hash whose key is not the record key of one of the given pages; when
    the index of the space is missing it keeps all hashes, and when the
    index holds the record key of a given page that key is gone. *)
Theorem remove_index_for_records_only_records
        (site : Site) (records : list WikiPage) (space : option string)
        (w : World RediSearch) :
  let r' := redis (snd (remove_index_for_records site records space w)) in
  indexes r' = indexes (redis w) /\
  (forall key,
      ~ In key (map (fun d => record_key site space (name d)) records) ->
      hashes r' !! key = hashes (redis w) !! key) /\
  (indexes (redis w) !! index_name site space = None -> r' = redis w) /\
  (forall prefixes d,
      indexes (redis w) !! index_name site space = Some prefixes ->
      In d records ->
      indexed_by prefixes (record_key site space (name d)) = true ->
      hashes r' !! record_key site space (name d) = None).
Proof.
  intros r'. destruct (remove_index_for_records_redis site records space w) as [Hi Hh].
  fold r' in Hi, Hh. split_and!.
  - exact Hi.
  - intros key Hkey. rewrite Hh. unfold removed_key.
    destruct (indexes (redis w) !! index_name site space); [|done].
    assert (existsb (fun d => String.eqb key (record_key site space (name d))) records
            = false) as ->; [|by rewrite andb_false_r].
    apply not_true_is_false. intros (d & Hd & Heq)%existsb_exists.
    apply String.eqb_eq in Heq. apply Hkey. apply in_map_iff. eauto.
  - intros Hidx. apply redisearch_eq; [done|]. apply map_eq. intros key.
    rewrite Hh. unfold removed_key. by rewrite Hidx.
  - intros prefixes d Hidx Hd Hkey. rewrite Hh. unfold removed_key.
    rewrite Hidx, Hkey. cbn [andb].
    assert (existsb (fun d0 => String.eqb (record_key site space (name d))
                                          (record_key site space (name d0))) records
            = true) as ->; [|done].
    apply existsb_exists. exists d. split; [done | apply String.eqb_refl].
Qed.

Lemma remove_index_for_records_only_records_witness :
  let w := world_of {| indexes := ∅;
                       hashes := {[ "wiki|wiki_page_search_docdocs:p1" :=
                                      {[ "title" := "Intro" ]} ]} |} None in
  redis (snd (remove_index_for_records site_docs [page "p1" "docs/intro"]
                                      (Some "docs") w)) = redis w.
Proof.
  intros w.
  destruct (remove_index_for_records_only_records
              site_docs [page "p1" "docs/intro"] (Some "docs") w)
    as (_ & _ & Hmissing & _).
  apply Hmissing. reflexivity.
Defined.

Lemma remove_index_redis (site : Site) (doc : WikiPage) (w : World RediSearch) :
  remove_index site doc w
  = remove_index_for_records
      site [{| name := name doc; title := ""; content := ""; route := route doc |}]
      (get_space_route site (route doc)) w.
Proof. reflexivity. Qed.

(** X8: against RediSearch, when the page's route resolves to a space
    whose index holds the page's record key, saving the page and then
    deleting it leaves no record at the key, every other hash and every
    index as before: Redis is as if the key had been deleted at once. *)
Theorem update_then_remove
        (site : Site) (strip_html_tags : string -> string) (doc : WikiPage)
        (space : string) (prefixes : list string) (w : World RediSearch) :
  get_space_route site (route doc) = Some space ->
  indexes (redis w) !! index_name site (Some space) = Some prefixes ->
  indexed_by prefixes (record_key site (Some space) (name doc)) = true ->
  exists w',
    bind (update_index site strip_html_tags doc) (fun _ => remove_index site doc) w
    = (Returned tt, w') /\
    indexes (redis w') = indexes (redis w) /\
    hashes (redis w') = delete (record_key site (Some space) (name doc)) (hashes (redis w)).
Proof.
  intros Hspace Hidx Hkey. unfold bind.
  destruct (update_index_run site strip_html_tags doc w) as (a & w1 & Hrun & _ & Hr1).
  rewrite Hspace in Hr1. unfold exec, redisearch_backend, hset_of in Hr1.
  rewrite hset_twice in Hr1.
  assert (a = None) as ->.
  { destruct a as [e|]; [|done]. exfalso. revert Hrun.
    unfold update_index, create_index_for_records, index_from, bind.
    change (Nat.ltb 10 (length [_])) with false. rewrite andb_false_r.
    unfold ret at 1, send, exec, redisearch_backend. cbn [redisearch_exec]. discriminate. }
  rewrite Hrun, remove_index_redis, Hspace.
  set (record := {| name := name doc; title := ""; content := ""; route := route doc |}).
  destruct (remove_index_for_records_run site [record] (Some space) w1)
    as (answers & w' & Hrem & _).
  destruct (remove_index_for_records_redis site [record] (Some space) w1) as [Hi Hh].
  rewrite Hrem in Hi, Hh |- *. cbn [snd] in Hi, Hh.
  exists w'. split; [done|]. rewrite Hi, Hr1. cbn [indexes]. split; [done|].
  apply map_eq. intros key. rewrite Hh, Hr1. cbn [indexes hashes].
  unfold removed_key. rewrite Hidx. cbn [existsb name record]. rewrite orb_false_r.
  destruct (String.eqb_spec key (record_key site (Some space) (name doc))) as [->|Hne].
  - rewrite Hkey. cbn [andb]. by rewrite lookup_delete_eq.
  - rewrite andb_false_r. by rewrite lookup_insert_ne, lookup_delete_ne.
Qed.

Lemma update_then_remove_witness :
  let w := world_of {| indexes := {[ "wiki|docs" := ["wiki|wiki_page_search_docdocs:"] ]};
                       hashes := ∅ |} None in
  exists w',
    bind (update_index site_docs strip_html_tags_re (page "p1" "docs/intro"))
         (fun _ => remove_index site_docs (page "p1" "docs/intro")) w
    = (Returned tt, w') /\
    indexes (redis w') = indexes (redis w) /\
    hashes (redis w') = delete "wiki|wiki_page_search_docdocs:p1" (hashes (redis w)).
Proof.
  intros w.
  apply (update_then_remove site_docs strip_html_tags_re (page "p1" "docs/intro")
           "docs" ["wiki|wiki_page_search_docdocs:"] w); reflexivity.
Defined.

(** X9: against RediSearch, while the index of the resolved space (or of
    [None]) does not exist, [remove_index] returns normally and deletes
    nothing: a record saved by [update_index] stays in Redis. *)
Theorem remove_index_without_index
        (site : Site) (strip_html_tags : string -> string) (doc : WikiPage)
        (w : World RediSearch) :
  indexes (redis w) !! index_name site (get_space_route site (route doc)) = None ->
  (fst (remove_index site doc w) = Returned tt /\
   redis (snd (remove_index site doc w)) = redis w) /\
  exists w',
    bind (update_index site strip_html_tags doc) (fun _ => remove_index site doc) w
    = (Returned tt, w') /\
    is_Some (hashes (redis w')
               !! record_key site (get_space_route site (route doc)) (name doc)).
Proof.
  intros Hidx.
  set (record := {| name := name doc; title := ""; content := ""; route := route doc |}).
  set (space := get_space_route site (route doc)) in *.
  assert (forall w0 : World RediSearch,
             indexes (redis w0) !! index_name site space = None ->
             fst (remove_index site doc w0) = Returned tt /\
             redis (snd (remove_index site doc w0)) = redis w0) as Hrem.
  { intros w0 Hidx0. rewrite remove_index_redis. fold space record.
    destruct (remove_index_for_records_run site [record] space w0)
      as (answers & w' & Hrun & _).
    destruct (remove_index_for_records_redis site [record] space w0) as [Hi Hh].
    rewrite Hrun in Hi, Hh |- *. cbn [fst snd] in *. split; [done|].
    apply redisearch_eq; [done|]. apply map_eq. intros key.
    rewrite Hh. unfold removed_key. by rewrite Hidx0. }
  split; [by apply Hrem|]. unfold bind.
  destruct (update_index_run site strip_html_tags doc w) as (a & w1 & Hrun & _ & Hr1).
  fold space in Hr1. unfold exec, redisearch_backend, hset_of in Hr1.
  rewrite hset_twice in Hr1.
  assert (a = None) as ->.
  { destruct a as [e|]; [|done]. exfalso. revert Hrun.
    unfold update_index, create_index_for_records, index_from, bind.
    change (Nat.ltb 10 (length [_])) with false. rewrite andb_false_r.
    unfold ret at 1, send, exec, redisearch_backend. cbn [redisearch_exec]. discriminate. }
  rewrite Hrun.
  assert (indexes (redis w1) !! index_name site space = None) as Hidx1
      by (by rewrite Hr1).
  destruct (Hrem w1 Hidx1) as [Hret Hsame].
  exists (snd (remove_index site doc w1)). split.
  - destruct (remove_index site doc w1) as [o w2]. cbn [fst snd] in *. by rewrite Hret.
  - rewrite Hsame, Hr1. cbn [hashes]. rewrite lookup_insert_eq. eauto.
Qed.

Lemma remove_index_without_index_witness :
  exists w',
    bind (update_index site_docs strip_html_tags_re (page "p1" "docs/intro"))
         (fun _ => remove_index site_docs (page "p1" "docs/intro"))
         (world_of empty_redis None)
    = (Returned tt, w') /\
    is_Some (hashes (redis w') !! "wiki|wiki_page_search_docdocs:p1").
Proof.
  apply (remove_index_without_index site_docs strip_html_tags_re
           (page "p1" "docs/intro") (world_of empty_redis None)).
  reflexivity.
Defined.

(** ** Against RediSearch: spaces beside each other *)

Lemma startswith_app_cancel (p a b : string) :
  Py.startswith (p +:+ a) (p +:+ b) = Py.startswith a b.
Proof.
  induction p as [|x p IH]; [done|]. cbn [String.append Py.startswith].
  by rewrite Ascii.eqb_refl.
Qed.

(** A record key of one colon-free space falls under the key prefix of
    another colon-free space only when the two are the same. *)
Lemma space_of_colon_prefix (s t page_name : string) :
  has_char ":" s = false -> has_char ":" t = false ->
  Py.startswith (s +:+ ":" +:+ page_name) (t +:+ ":") = true -> s = t.
Proof.
  revert t. induction s as [|a s IH]; intros [|b t]; cbn [has_char String.append Py.startswith].
  - done.
  - intros _ [Hb _]%orb_false_iff. change (":" +:+ page_name) with (String ":" page_name).
    cbn [Py.startswith]. by rewrite Hb.
  - intros [Ha _]%orb_false_iff _. change (":" +:+ "") with (String ":" "").
    cbn [Py.startswith]. rewrite Ascii.eqb_sym, Ha. done.
  - intros [Ha Hs]%orb_false_iff [Hb Ht]%orb_false_iff.
    destruct (Ascii.eqb_spec b a) as [->|]; [|done].
    intros Hpre. by rewrite (IH t Hs Ht Hpre).
Qed.

Lemma record_key_under_prefix (site : Site) (s t page_name : string) :
  has_char ":" s = false -> has_char ":" t = false ->
  indexed_by [make_key site (PREFIX +:+ t) +:+ ":"]
             (record_key site (Some s) page_name) = true ->
  s = t.
Proof.
  intros Hs Ht. unfold indexed_by. cbn [existsb]. rewrite orb_false_r.
  unfold record_key, make_key. cbn [Py.format].
  replace ((db_name site +:+ "|" +:+ PREFIX +:+ t) +:+ ":")
    with ((db_name site +:+ "|" +:+ PREFIX) +:+ t +:+ ":")
    by (by rewrite !app_assoc_str).
  replace (db_name site +:+ "|" +:+ PREFIX +:+ s +:+ ":" +:+ page_name)
    with ((db_name site +:+ "|" +:+ PREFIX) +:+ s +:+ ":" +:+ page_name)
    by (by rewrite !app_assoc_str).
  rewrite startswith_app_cancel. by apply space_of_colon_prefix.
Qed.

Lemma index_name_inj (site : Site) (s t : string) :
  index_name site (Some s) = index_name site (Some t) -> s = t.
Proof.
  unfold index_name, make_key. cbn [Py.format]. intros Heq.
  apply (inj (String.append (db_name site))) in Heq.
  by apply (inj (String.append "|")) in Heq.
Qed.

(** X15: against RediSearch, for two different spaces whose routes hold no
    colon, dropping the index of one (missing, or registered as a rebuild
    registers it) leaves the index and every record of the other as they
    were. *)
Theorem drop_index_isolated
        (site : Site) (s t : string) (w : World RediSearch) :
  has_char ":" s = false -> has_char ":" t = false -> s <> t ->
  (forall prefixes,
      indexes (redis w) !! index_name site (Some t) = Some prefixes ->
      prefixes = [make_key site (PREFIX +:+ t) +:+ ":"]) ->
  let w' := snd (drop_index site t w) in
  indexes (redis w') !! index_name site (Some s)
  = indexes (redis w) !! index_name site (Some s) /\
  forall page_name,
    hashes (redis w') !! record_key site (Some s) page_name
    = hashes (redis w) !! record_key site (Some s) page_name.
Proof.
  intros Hs Ht Hne Hstd w'. subst w'.
  unfold drop_index, try_except, send, exec, redisearch_backend.
  cbn [redisearch_exec].
  destruct (indexes (redis w) !! index_name site (Some t)) as [prefixes|] eqn:Hidx;
    cbn; [|done].
  rewrite (Hstd prefixes eq_refl). split.
  - apply lookup_delete_ne. intros Heq. apply Hne. symmetry. by apply index_name_inj in Heq.
  - intros page_name.
    destruct (hashes (redis w) !! record_key site (Some s) page_name) as [fields|] eqn:Hh.
    + apply map_lookup_filter_Some. split; [done|]. cbn.
      apply not_true_is_false. intros Hin. apply Hne.
      by apply (record_key_under_prefix site s t page_name).
    + apply map_lookup_filter_None. by left.
Qed.

Lemma drop_index_isolated_witness :
  let w := world_of {| indexes := {[ "wiki|a" := ["wiki|wiki_page_search_doca:"];
                                     "wiki|b" := ["wiki|wiki_page_search_docb:"] ]};
                       hashes := {[ "wiki|wiki_page_search_doca:p1" := {[ "title" := "A" ]};
                                    "wiki|wiki_page_search_docb:p2" := {[ "title" := "B" ]} ]} |}
                    None in
  hashes (redis (snd (drop_index site_abc "b" w))) !! record_key site_abc (Some "a") "p1"
  = Some {[ "title" := "A" ]}.
Proof.
  intros w.
  assert (forall prefixes,
             indexes (redis w) !! index_name site_abc (Some "b") = Some prefixes ->
             prefixes = [make_key site_abc (PREFIX +:+ "b") +:+ ":"]) as Hstd.
  { intros prefixes Hidx. vm_compute in Hidx. by injection Hidx as <-. }
  assert ("a" <> "b") as Hne by discriminate.
  destruct (drop_index_isolated site_abc "a" "b" w eq_refl eq_refl Hne Hstd)
    as [_ Hrecords].
  rewrite Hrecords. reflexivity.
Defined.

(** ** Against RediSearch: a whole rebuild *)

Lemma index_from_redis (site : Site) (strip_html_tags : string -> string)
      (total : nat) (space : option string) (i : nat) (records : list WikiPage)
      (w : World RediSearch) :
  exists evs w',
    index_from site strip_html_tags total space i records w = (Returned tt, w') /\
    extends w w' evs /\ printed_of evs = [] /\
    indexes (redis w') = indexes (redis w).
Proof.
  revert i w. induction records as [|d rest IH]; intros i w.
  - exists [], w. split_and!; [done | by unfold extends; rewrite app_nil_r | done..].
  - cbn [index_from]. unfold bind.
    destruct (negb (has_request site) && (10 <? total)).
    + unfold emit. rewrite send_hset_redis. cbn [redis cache jobs trace].
      match goal with
      | |- context [index_from _ _ _ _ _ rest ?w1] =>
          destruct (IH (S i) w1) as (evs & w' & -> & (Hc & Hj & Ht) & Hp & Hi)
      end.
      eexists (_ :: _ :: evs), w'. split; [reflexivity|].
      cbn [cache jobs trace redis indexes] in *. split_and!.
      * unfold extends. rewrite Hc, Hj, Ht. split_and!; [done..|].
        by rewrite <- !app_assoc.
      * exact Hp.
      * exact Hi.
    + unfold ret at 1. rewrite send_hset_redis. cbn [redis cache jobs trace].
      match goal with
      | |- context [index_from _ _ _ _ _ rest ?w1] =>
          destruct (IH (S i) w1) as (evs & w' & -> & (Hc & Hj & Ht) & Hp & Hi)
      end.
      eexists (_ :: evs), w'. split; [reflexivity|].
      cbn [cache jobs trace redis indexes] in *. split_and!.
      * unfold extends. rewrite Hc, Hj, Ht. split_and!; [done..|].
        by rewrite <- !app_assoc.
      * exact Hp.
      * exact Hi.
Qed.

(** Against RediSearch one turn of the rebuild loop prints nothing and
    registers the index of its space. *)
Lemma rebuild_space_redis (site : Site) (strip_html_tags : string -> string)
      (space : string) (w : World RediSearch) :
  exists evs w',
    rebuild_space site strip_html_tags (wiki_pages site) space w = (Returned tt, w') /\
    extends w w' evs /\ printed_of evs = [] /\
    indexes (redis w')
    = <[index_name site (Some space) := [make_key site (PREFIX +:+ space) +:+ ":"]]>
        (indexes (redis w)).
Proof.
  unfold rebuild_space, try_except, bind.
  assert (exists answer w1,
             drop_index site space w = (Returned tt, w1) /\
             extends w w1 [Redis (FtDropIndex (index_name site (Some space))) answer] /\
             indexes (redis w1) = delete (index_name site (Some space)) (indexes (redis w)))
    as (answer & w1 & -> & (Hc1 & Hj1 & Ht1) & Hi1).
  { unfold drop_index, try_except, send, exec, redisearch_backend.
    cbn [redisearch_exec].
    destruct (indexes (redis w) !! index_name site (Some space)) eqn:Hidx.
    - eexists None, _. split; [reflexivity|]. split; [by unfold extends | done].
    - eexists (Some _), _. split; [reflexivity|]. split; [by unfold extends|].
      cbn. symmetry. by apply delete_id. }
  rewrite send_create_redis by (rewrite Hi1; apply lookup_delete_eq).
  unfold create_index_for_records.
  match goal with
  | |- context [index_from _ _ ?n ?sp 0 ?recs ?w2] =>
      destruct (index_from_redis site strip_html_tags n sp 0 recs w2)
        as (evs & w' & -> & (Hc & Hj & Ht) & Hp & Hi)
  end.
  cbn [cache jobs trace redis indexes] in *.
  eexists (_ :: _ :: evs), w'. split; [reflexivity|]. split_and!.
  - unfold extends. rewrite Hc, Hj, Ht, Hc1, Hj1, Ht1. split_and!; [done..|].
    by rewrite <- !app_assoc.
  - exact Hp.
  - rewrite Hi, Hi1. apply insert_delete_eq.
Qed.

Lemma rebuild_loop_redis (site : Site) (strip_html_tags : string -> string)
      (spaces : list string) (w : World RediSearch) :
  exists evs w',
    for_each (rebuild_space site strip_html_tags (wiki_pages site)) spaces w
    = (Returned tt, w') /\
    extends w w' evs /\ printed_of evs = [] /\
    (forall space, In space spaces ->
                   indexes (redis w') !! index_name site (Some space)
                   = Some [make_key site (PREFIX +:+ space) +:+ ":"]) /\
    (forall key, (forall space, In space spaces -> index_name site (Some space) <> key) ->
                 indexes (redis w') !! key = indexes (redis w) !! key).
Proof.
  revert w. induction spaces as [|s rest IH]; intros w.
  - exists [], w. split_and!; [done | by unfold extends; rewrite app_nil_r | done | | done].
    intros space [].
  - cbn [for_each]. unfold bind.
    destruct (rebuild_space_redis site strip_html_tags s w)
      as (evs1 & w1 & -> & Hext1 & Hp1 & Hi1).
    destruct (IH w1) as (evs & w' & -> & Hext & Hp & Hin & Hout).
    exists (evs1 ++ evs), w'. split_and!.
    + done.
    + by eapply extends_trans.
    + unfold printed_of in *. by rewrite omap_app, Hp1, Hp.
    + intros space [<-|Hrest]; [|by apply Hin].
      destruct (decide (s ∈ rest)) as [Hs|Hs].
      * apply Hin. by apply list_elem_of_In.
      * rewrite Hout, Hi1; [apply lookup_insert_eq|].
        intros space Hspace Heq. apply index_name_inj in Heq as ->.
        apply Hs. by apply list_elem_of_In.
    + intros key Hkey. rewrite Hout, Hi1.
      * apply lookup_insert_ne. apply Hkey. by left.
      * intros space Hspace. apply Hkey. by right.
Qed.

(** X5: against RediSearch a rebuild from any state returns, prints no
    error, leaves the flag false and the index of every space registered
    with the key prefix of that space's records; indexes of other names are
    untouched. *)
Theorem rebuild_index_registers_indexes
        (site : Site) (strip_html_tags : string -> string) (w : World RediSearch) :
  exists w',
    rebuild_index site strip_html_tags w = (Returned tt, w') /\
    cache w' !! IN_PROGRESS = Some false /\
    printed_of (trace w') = printed_of (trace w) /\
    (forall space, In space (wiki_spaces site) ->
                   indexes (redis w') !! index_name site (Some space)
                   = Some [make_key site (PREFIX +:+ space) +:+ ":"]) /\
    (forall key,
        (forall space, In space (wiki_spaces site) -> index_name site (Some space) <> key) ->
        indexes (redis w') !! key = indexes (redis w) !! key).
Proof.
  unfold rebuild_index, bind, set_value.
  match goal with
  | |- context [for_each _ _ ?w1] =>
      destruct (rebuild_loop_redis site strip_html_tags (wiki_spaces site) w1)
        as (evs & w2 & -> & (Hc & Hj & Ht) & Hp & Hin & Hout)
  end.
  cbn [cache jobs trace redis] in *.
  eexists. split; [reflexivity|]. cbn [cache jobs trace redis]. split_and!.
  - apply lookup_insert_eq.
  - rewrite Ht. unfold printed_of in *. rewrite !omap_app, Hp. cbn.
    by rewrite !app_nil_r.
  - exact Hin.
  - exact Hout.
Qed.

Lemma rebuild_index_registers_indexes_witness :
  exists w',
    rebuild_index site_abc strip_html_tags_re (world_of empty_redis None)
    = (Returned tt, w') /\
    indexes (redis w') !! "wiki|b" = Some ["wiki|wiki_page_search_docb:"].
Proof.
  destruct (rebuild_index_registers_indexes site_abc strip_html_tags_re
              (world_of empty_redis None)) as (w' & Hrun & _ & _ & Hin & _).
  exists w'. split; [exact Hrun|].
  apply (Hin "b"). simpl. tauto.
Defined.
